(** * Konsultabot mobile client: session bootstrap, auth operations, chat bookkeeping

    A shallow embedding of
      - [KonsultabotMobileNew/src/services/apiService.js]   (module [ApiService])
      - [KonsultabotMobileNew/src/context/AuthContext.js]   (module [AuthContext])
      - [KonsultabotMobileNew/src/screens/auth/RegisterScreen.js], which also
        holds the login screen                              (modules [RegisterScreen], [LoginScreen])
      - the chat screen                                     (module [ChatScreen])

    Asynchronous functions are values of a resumption monad: a computation
    either finishes in a world, or is suspended on one HTTP request together
    with the continuation that is run when axios settles the request.

    Modelling conventions.
      - A string is the UTF-8 encoding of the JavaScript string.  [trim]
        removes the white space and line terminators of ECMAScript, in their
        encodings of one, two and three bytes; [code_units] is [.length], the
        number of UTF-16 code units.  [toLowerCase] changes the ASCII letters
        only: the code uses its result only to look for the two institutional
        domains, ASCII texts without [i] and [k], which the lower case of no
        other letter contains.
      - Payload numbers are integers below [10^21] in absolute value, the
        range in which [toString] writes all the digits; the code never
        computes with them.
      - [JSON.parse] and [JSON.stringify] are platform functions, taken as
        parameters (class [JSON]).
      - The two storage backends are total finite maps: reads, writes and
        deletes of a string value do not fail.  [SecureStore.setItemAsync]
        rejects a value that is not a string, as expo-secure-store does.
      - [console.log] and [console.error] are not modelled; [Alert.alert] and
        [Speech.speak] are recorded in the world.
      - Handlers read the state of the render in which they are invoked.  A
        handler runs without interruption up to its request; its continuation
        starts from the world as it is when the request settles, so that
        statements about a continuation hold for overlapping handlers too.
        [run] and [ChatScreen.play] settle each request before anything else
        happens. *)

From stdpp Require Import base strings list gmap.
From Stdlib Require Import ZArith DecimalString.

(* ===================================================================== *)
(** ** JavaScript values *)
(* ===================================================================== *)

Module Js.

#[warnings="-register-all"] Inductive JsVal : Type :=
| JUndefined
| JNull
| JBool (b : bool)
| JNum (n : Z)
| JStr (s : string)
| JArr (items : list JsVal)
| JObj (fields : list (string * JsVal)).

(** ToBoolean: what [if (v)], [!v] and [v || w] test. *)
Definition truthy (v : JsVal) : bool :=
  match v with
  | JUndefined | JNull => false
  | JBool b => b
  | JNum n => negb (n =? 0)%Z
  | JStr s => negb (String.eqb s "")
  | JArr _ | JObj _ => true
  end.

(** [a || b] *)
Definition or_else (a b : JsVal) : JsVal := if truthy a then a else b.

Fixpoint field (p : string) (fs : list (string * JsVal)) : JsVal :=
  match fs with
  | [] => JUndefined
  | (k, v) :: fs' => if String.eqb k p then v else field p fs'
  end.

(** [v.p] for a named (non-index) property [p]: [None] is the TypeError
    raised on [undefined] and [null]. *)
Definition get (v : JsVal) (p : string) : option JsVal :=
  match v with
  | JUndefined | JNull => None
  | JObj fs => Some (field p fs)
  | _ => Some JUndefined
  end.

(** [v?.p] *)
Definition get_opt (v : JsVal) (p : string) : JsVal :=
  match get v p with
  | Some x => x
  | None => JUndefined
  end.

(** [n.toString()] on an integer below [10^21] in absolute value, where
    JavaScript writes all the digits; clock readings are in this range. *)
Definition Number_toString (n : Z) : string :=
  NilZero.string_of_int (Z.to_int n).

(** ToString, as applied by template literals and by [localStorage.setItem]. *)
Fixpoint ToString (v : JsVal) : string :=
  match v with
  | JUndefined => "undefined"
  | JNull => "null"
  | JBool true => "true"
  | JBool false => "false"
  | JNum n => Number_toString n
  | JStr s => s
  | JObj _ => "[object Object]"
  | JArr items =>
      (fix join (l : list JsVal) : string :=
         match l with
         | [] => ""
         | x :: l' =>
             let e := match x with
                      | JUndefined | JNull => ""
                      | _ => ToString x
                      end in
             match l' with
             | [] => e
             | _ => e +:+ "," +:+ join l'
             end
         end) items
  end.

(** What [String.prototype.trim] removes, by the length of the UTF-8
    encoding.  One byte: TAB, LF, VT, FF, CR and the space. *)
Definition is_space (c : Ascii.ascii) : bool :=
  let n := Ascii.nat_of_ascii c in
  ((9 <=? n) && (n <=? 13) || (n =? 32))%nat.

(** Two bytes: U+00A0, the no-break space. *)
Definition is_space2 (c1 c2 : Ascii.ascii) : bool :=
  ((Ascii.nat_of_ascii c1 =? 194) && (Ascii.nat_of_ascii c2 =? 160))%nat.

(** Three bytes: U+1680; U+2000 to U+200A, the line and paragraph
    separators U+2028 and U+2029, and U+202F; U+205F; U+3000; and U+FEFF. *)
Definition is_space3 (c1 c2 c3 : Ascii.ascii) : bool :=
  let n1 := Ascii.nat_of_ascii c1 in
  let n2 := Ascii.nat_of_ascii c2 in
  let n3 := Ascii.nat_of_ascii c3 in
  ((n1 =? 225) && (n2 =? 154) && (n3 =? 128)
   || (n1 =? 226) && (n2 =? 128)
      && ((128 <=? n3) && (n3 <=? 138)
          || (n3 =? 168) || (n3 =? 169) || (n3 =? 175))
   || (n1 =? 226) && (n2 =? 129) && (n3 =? 159)
   || (n1 =? 227) && (n2 =? 128) && (n3 =? 128)
   || (n1 =? 239) && (n2 =? 187) && (n3 =? 191))%nat.

Fixpoint trimStart (s : string) : string :=
  match s with
  | EmptyString => EmptyString
  | String c1 s1 =>
      if is_space c1 then trimStart s1
      else match s1 with
           | EmptyString => s
           | String c2 s2 =>
               if is_space2 c1 c2 then trimStart s2
               else match s2 with
                    | EmptyString => s
                    | String c3 s3 =>
                        if is_space3 c1 c2 c3 then trimStart s3 else s
                    end
           end
  end.

(** Drops trailing white space: a byte is kept as long as what starts at
    it is not white space throughout. *)
Fixpoint trimEnd (s : string) : string :=
  match s with
  | EmptyString => EmptyString
  | String c s' =>
      if String.eqb (trimStart s) "" then EmptyString
      else String c (trimEnd s')
  end.

Definition trim (s : string) : string := trimEnd (trimStart s).

(** [s.length]: the number of UTF-16 code units.  A byte that continues a
    character counts for nothing, the first byte of a character for one,
    and for two when the character takes four bytes (it is then outside the
    basic plane and takes a surrogate pair). *)
Fixpoint code_units (s : string) : nat :=
  match s with
  | EmptyString => 0
  | String c s' =>
      let n := Ascii.nat_of_ascii c in
      ((if (n <? 128) then 1
        else if (n <? 192) then 0
        else if (n <? 240) then 1
        else 2) + code_units s')%nat
  end.

Definition lower (c : Ascii.ascii) : Ascii.ascii :=
  let n := Ascii.nat_of_ascii c in
  if ((65 <=? n) && (n <=? 90))%nat then Ascii.ascii_of_nat (n + 32) else c.

Fixpoint toLowerCase (s : string) : string :=
  match s with
  | EmptyString => EmptyString
  | String c s' => String (lower c) (toLowerCase s')
  end.

(** [s.includes(sub)] *)
Fixpoint includes (s sub : string) : bool :=
  if String.prefix sub s then true
  else match s with
       | EmptyString => false
       | String _ s' => includes s' sub
       end.

(** [s.endsWith(suf)], used only to state properties. *)
Definition endsWith (s suf : string) : bool :=
  (String.length suf <=? String.length s)%nat
  && String.eqb
       (String.substring (String.length s - String.length suf)
                         (String.length suf) s)
       suf.

(** [v === undefined || v === null] *)
Definition nullish (v : JsVal) : bool :=
  match v with
  | JUndefined | JNull => true
  | _ => false
  end.

End Js.
Export Js.

(** [JSON.parse] returns [None] where it throws a SyntaxError;
    [JSON.stringify] returns [None] where it returns [undefined]. *)
Class JSON := {
  JSON_parse : string → option JsVal;
  JSON_stringify : JsVal → option string
}.

(* ===================================================================== *)
(** ** HTTP through axios *)
(* ===================================================================== *)

Inductive Method := GET | POST | PUT.

Record Request := {
  method : Method;
  url : string;
  body : JsVal;                      (* [JUndefined]: no body *)
  authorization : option string      (* the Authorization header *)
}.

Record AxiosResponse := { status : Z; data : JsVal }.

(** How axios settles a request: the promise resolves with a response, or
    rejects with an error whose [response] is absent when no answer arrived
    (network error, timeout). *)
Inductive HttpOutcome :=
| Resolved (r : AxiosResponse)
| Rejected (response : option AxiosResponse).

Inductive JsError :=
| AxiosError (response : option AxiosResponse)
| TypeError
| SyntaxError
| SecureStoreError.

(** [error.response] *)
Definition error_response (e : JsError) : option AxiosResponse :=
  match e with
  | AxiosError r => r
  | _ => None
  end.

(** [error.response?.status === n] *)
Definition response_status_is (r : option AxiosResponse) (n : Z) : bool :=
  match r with
  | Some r => (status r =? n)%Z
  | None => false
  end.

(** [error.response?.data?.message] *)
Definition error_message (e : JsError) : JsVal :=
  match error_response e with
  | Some r => get_opt (data r) "message"
  | None => JUndefined
  end.

(* ===================================================================== *)
(** ** The world: storage, provider state, API client, screens *)
(* ===================================================================== *)

(** The credential store.  [web] is the outcome of
    [typeof window !== 'undefined' && typeof localStorage !== 'undefined'];
    it selects the backend on every access. *)
Record Store := {
  web : bool;
  localStorage : gmap string string;
  secureStore : gmap string string
}.

(** State of [AuthProvider]. *)
Record AuthState := { user : JsVal; token : JsVal; isLoading : bool }.

(** A chat message.  The optional tags are [JUndefined] when absent;
    [isError] is absent unless [true]. *)
Record Message := {
  id : string;
  text : JsVal;
  isBot : bool;
  timestamp : Z;
  msg_language : JsVal;
  mode : JsVal;
  confidence : JsVal;
  isError : bool
}.

(** State of [ChatScreen]. *)
Record ChatState := {
  messages : list Message;
  inputText : string;
  loading : bool;
  language : string;
  sessionId : JsVal
}.

Record World := {
  store : Store;
  auth : AuthState;
  authToken : JsVal;                 (* [apiService.authToken] *)
  chat : ChatState;
  registerLoading : bool;            (* [loading] of RegisterScreen *)
  loginLoading : bool;               (* [loading] of LoginScreen *)
  alerts : list (string * JsVal);    (* [Alert.alert(title, message)], oldest first *)
  spoken : list JsVal;               (* [Speech.speak(text, ...)], oldest first *)
  clock : nat → Z;                   (* successive readings of the wall clock, ms *)
  ticks : nat                        (* readings taken so far *)
}.

Definition with_store (f : Store → Store) (w : World) : World :=
  {| store := f (store w); auth := auth w; authToken := authToken w;
     chat := chat w; registerLoading := registerLoading w;
     loginLoading := loginLoading w; alerts := alerts w; spoken := spoken w;
     clock := clock w; ticks := ticks w |}.

Definition with_auth (f : AuthState → AuthState) (w : World) : World :=
  {| store := store w; auth := f (auth w); authToken := authToken w;
     chat := chat w; registerLoading := registerLoading w;
     loginLoading := loginLoading w; alerts := alerts w; spoken := spoken w;
     clock := clock w; ticks := ticks w |}.

Definition with_authToken (v : JsVal) (w : World) : World :=
  {| store := store w; auth := auth w; authToken := v;
     chat := chat w; registerLoading := registerLoading w;
     loginLoading := loginLoading w; alerts := alerts w; spoken := spoken w;
     clock := clock w; ticks := ticks w |}.

Definition with_chat (f : ChatState → ChatState) (w : World) : World :=
  {| store := store w; auth := auth w; authToken := authToken w;
     chat := f (chat w); registerLoading := registerLoading w;
     loginLoading := loginLoading w; alerts := alerts w; spoken := spoken w;
     clock := clock w; ticks := ticks w |}.

Definition with_registerLoading (b : bool) (w : World) : World :=
  {| store := store w; auth := auth w; authToken := authToken w;
     chat := chat w; registerLoading := b;
     loginLoading := loginLoading w; alerts := alerts w; spoken := spoken w;
     clock := clock w; ticks := ticks w |}.

Definition with_loginLoading (b : bool) (w : World) : World :=
  {| store := store w; auth := auth w; authToken := authToken w;
     chat := chat w; registerLoading := registerLoading w;
     loginLoading := b; alerts := alerts w; spoken := spoken w;
     clock := clock w; ticks := ticks w |}.

Definition with_alert (title : string) (msg : JsVal) (w : World) : World :=
  {| store := store w; auth := auth w; authToken := authToken w;
     chat := chat w; registerLoading := registerLoading w;
     loginLoading := loginLoading w; alerts := alerts w ++ [(title, msg)];
     spoken := spoken w; clock := clock w; ticks := ticks w |}.

Definition with_spoken (v : JsVal) (w : World) : World :=
  {| store := store w; auth := auth w; authToken := authToken w;
     chat := chat w; registerLoading := registerLoading w;
     loginLoading := loginLoading w; alerts := alerts w;
     spoken := spoken w ++ [v]; clock := clock w; ticks := ticks w |}.

Definition with_tick (w : World) : World :=
  {| store := store w; auth := auth w; authToken := authToken w;
     chat := chat w; registerLoading := registerLoading w;
     loginLoading := loginLoading w; alerts := alerts w; spoken := spoken w;
     clock := clock w; ticks := S (ticks w) |}.

(* ===================================================================== *)
(** ** Asynchronous computations *)
(* ===================================================================== *)

Inductive Result (A : Type) : Type :=
| Ok (a : A)
| Thrown (e : JsError).
Arguments Ok {A} a.
Arguments Thrown {A} e.

(** A computation has either completed, or awaits the settlement of one
    HTTP request; the continuation starts from the world as it is when
    the request settles. *)
Inductive Step (A : Type) : Type :=
| Done (w : World) (r : Result A)
| Await (w : World) (req : Request) (k : HttpOutcome → World → Step A).
Arguments Done {A} w r.
Arguments Await {A} w req k.

Definition Proc (A : Type) : Type := World → Step A.

Definition ret {A} (a : A) : Proc A := λ w, Done w (Ok a).
Definition throw {A} (e : JsError) : Proc A := λ w, Done w (Thrown e).
Definition modify (f : World → World) : Proc () := λ w, Done (f w) (Ok ()).
Definition read {A} (f : World → A) : Proc A := λ w, Done w (Ok (f w)).

Fixpoint bind_step {A B} (s : Step A) (f : A → Proc B) : Step B :=
  match s with
  | Done w (Ok a) => f a w
  | Done w (Thrown e) => Done w (Thrown e)
  | Await w req k => Await w req (λ o w', bind_step (k o w') f)
  end.

Definition bind {A B} (p : Proc A) (f : A → Proc B) : Proc B :=
  λ w, bind_step (p w) f.

(** [try { p } catch (error) { h error }] *)
Fixpoint catch_step {A} (s : Step A) (h : JsError → Proc A) : Step A :=
  match s with
  | Done w (Ok a) => Done w (Ok a)
  | Done w (Thrown e) => h e w
  | Await w req k => Await w req (λ o w', catch_step (k o w') h)
  end.

Definition try_catch {A} (p : Proc A) (h : JsError → Proc A) : Proc A :=
  λ w, catch_step (p w) h.

(** [try { p } finally { q }]: [q] runs after [p] however [p] ends, and the
    completion of [p] stands unless [q] itself throws. *)
Fixpoint finally_step {A} (s : Step A) (q : Proc ()) : Step A :=
  match s with
  | Done w r => bind_step (q w) (λ _ w', Done w' r)
  | Await w req k => Await w req (λ o w', finally_step (k o w') q)
  end.

Definition try_finally {A} (p : Proc A) (q : Proc ()) : Proc A :=
  λ w, finally_step (p w) q.

Declare Scope proc_scope.
Delimit Scope proc_scope with proc.
Notation "x <- p ;; q" := (bind p (λ x, q))
  (at level 100, p at next level, right associativity) : proc_scope.
Notation "p ;; q" := (bind p (λ _, q))
  (at level 100, right associativity) : proc_scope.
#[local] Open Scope proc_scope.

(** Running a computation when every request it makes is settled at once,
    in the world in which it was made. *)
Fixpoint run {A} (s : Step A) (os : list HttpOutcome) : Step A :=
  match s, os with
  | Await w _ k, o :: os' => run (k o w) os'
  | _, _ => s
  end.

(** The requests issued along such a run, oldest first. *)
Fixpoint requests {A} (s : Step A) (os : list HttpOutcome) : list Request :=
  match s with
  | Done _ _ => []
  | Await w req k =>
      req :: match os with
             | o :: os' => requests (k o w) os'
             | [] => []
             end
  end.

(** The world a computation has reached: where it completed, or where it is
    suspended. *)
Definition world_of {A} (s : Step A) : World :=
  match s with
  | Done w _ => w
  | Await w _ _ => w
  end.

(** [Date.now()] and the reading taken by [new Date()]. *)
Definition Date_now : Proc Z := λ w, Done (with_tick w) (Ok (clock w (ticks w))).

(** [Alert.alert(title, message)] *)
Definition Alert_alert (title : string) (msg : JsVal) : Proc () :=
  modify (with_alert title msg).

(** [v.p] inside a computation: a TypeError when [v] is [undefined] or
    [null]. *)
Definition get_prop (v : JsVal) (p : string) : Proc JsVal :=
  match get v p with
  | Some x => ret x
  | None => throw TypeError
  end.

(* ===================================================================== *)
(** ** services/apiService.js *)
(* ===================================================================== *)

Module ApiService.

(** [setAuthToken(token)] *)
Definition setAuthToken (t : JsVal) : Proc () := modify (with_authToken t).

(** The request interceptor: the Authorization header, present when
    [this.authToken] is truthy. *)
Definition request_interceptor (w : World) : option string :=
  if truthy (authToken w) then Some ("Token " +:+ ToString (authToken w))
  else None.

(** The response interceptor: a response passes through; an error resets
    [this.authToken] when [error.response?.status === 401] and is rejected
    again. *)
Definition response_interceptor (o : HttpOutcome) : Proc AxiosResponse :=
  match o with
  | Resolved r => ret r
  | Rejected resp =>
      (if response_status_is resp 401
       then modify (with_authToken JNull)
       else ret ()) ;;
      throw (AxiosError resp)
  end.

(** [this.api.get / post / put]: one request through both interceptors. *)
Definition api (m : Method) (u : string) (b : JsVal) : Proc AxiosResponse :=
  λ w, Await w
         {| method := m; url := u; body := b;
            authorization := request_interceptor w |}
         response_interceptor.

Definition login (email password : string) : Proc AxiosResponse :=
  api POST "/users/login/"
      (JObj [("email", JStr email); ("password", JStr password)]).

Definition register (userData : JsVal) : Proc AxiosResponse :=
  api POST "/users/register/" userData.

Definition logout : Proc AxiosResponse :=
  api POST "/users/logout/" JUndefined.

Definition getProfile : Proc AxiosResponse :=
  api GET "/users/profile/" JUndefined.

Definition updateProfile (profileData : JsVal) : Proc AxiosResponse :=
  api PUT "/users/profile/update/" profileData.

(** [sendMessage(message, language = 'english', sessionId = null)]:
    [session_id] is part of the payload only when [sessionId] is truthy.  The
    chat screen always passes a language; the default of [sessionId] turns
    [undefined] into [null], and both are left out. *)
Definition sendMessage (message language : string) (sessionId : JsVal)
  : Proc AxiosResponse :=
  let payload := [("message", JStr message); ("language", JStr language)] in
  api POST "/chat/send/"
      (JObj (if truthy sessionId
             then payload ++ [("session_id", sessionId)]
             else payload)).

(** [getApiUrl()]: [window] is the outcome of [typeof window !== 'undefined']
    and [expoConfig] is [Constants.expoConfig]. *)
Definition getApiUrl (window : bool) (expoConfig : JsVal) : JsVal :=
  if window then JStr "http://localhost:8000/api"
  else or_else (get_opt (get_opt expoConfig "extra") "apiUrl")
               (JStr "http://localhost:8000/api").

Definition getConversationHistory : Proc AxiosResponse :=
  api GET "/chat/history/" JUndefined.

Definition getChatSessions : Proc AxiosResponse :=
  api GET "/chat/sessions/" JUndefined.

Definition endChatSession (sessionId : JsVal) : Proc AxiosResponse :=
  api POST "/chat/sessions/end/" (JObj [("session_id", sessionId)]).

Definition healthCheck : Proc AxiosResponse :=
  api GET "/health/" JUndefined.

Definition getApiStatus : Proc AxiosResponse :=
  api GET "/status/" JUndefined.

End ApiService.

(* ===================================================================== *)
(** ** The two storage backends *)
(* ===================================================================== *)

Definition isWeb : Proc bool := read (λ w, web (store w)).

Definition stored (m : gmap string string) (key : string) : JsVal :=
  match m !! key with
  | Some s => JStr s
  | None => JNull
  end.

Module localStorage.

Definition getItem (key : string) : Proc JsVal :=
  read (λ w, stored (localStorage (store w)) key).

(** The value is converted to a string. *)
Definition setItem (key : string) (v : JsVal) : Proc () :=
  modify (with_store (λ s,
    {| web := web s;
       localStorage := <[key := ToString v]> (localStorage s);
       secureStore := secureStore s |})).

Definition removeItem (key : string) : Proc () :=
  modify (with_store (λ s,
    {| web := web s;
       localStorage := delete key (localStorage s);
       secureStore := secureStore s |})).

End localStorage.

Module SecureStore.

Definition getItemAsync (key : string) : Proc JsVal :=
  read (λ w, stored (secureStore (store w)) key).

(** Only a string is accepted. *)
Definition setItemAsync (key : string) (v : JsVal) : Proc () :=
  match v with
  | JStr s =>
      modify (with_store (λ st,
        {| web := web st;
           localStorage := localStorage st;
           secureStore := <[key := s]> (secureStore st) |}))
  | _ => throw SecureStoreError
  end.

Definition deleteItemAsync (key : string) : Proc () :=
  modify (with_store (λ s,
    {| web := web s;
       localStorage := localStorage s;
       secureStore := delete key (secureStore s) |})).

End SecureStore.

(** The backend in use, for stating properties. *)
Definition credentials (w : World) : gmap string string :=
  if web (store w) then localStorage (store w) else secureStore (store w).

(* ===================================================================== *)
(** ** context/AuthContext.js *)
(* ===================================================================== *)

Module AuthContext.

Record AuthResult := { success : bool; error : JsVal }.

Definition setUser (v : JsVal) : Proc () :=
  modify (with_auth (λ a,
    {| user := v; token := token a; isLoading := isLoading a |})).

Definition setToken (v : JsVal) : Proc () :=
  modify (with_auth (λ a,
    {| user := user a; token := v; isLoading := isLoading a |})).

Definition setIsLoading (b : bool) : Proc () :=
  modify (with_auth (λ a,
    {| user := user a; token := token a; isLoading := b |})).

(** [useState(null)], [useState(null)], [useState(true)] *)
Definition initial : AuthState :=
  {| user := JNull; token := JNull; isLoading := true |}.

Definition clearStoredAuth : Proc () :=
  b <- isWeb ;;
  if b then
    (localStorage.removeItem "authToken" ;;
     localStorage.removeItem "userData")
  else
    (SecureStore.deleteItemAsync "authToken" ;;
     SecureStore.deleteItemAsync "userData").

Section WithJSON.
Context `{JSON}.

(** [JSON.parse(v)] *)
Definition parse (v : JsVal) : Proc JsVal :=
  match JSON_parse (ToString v) with
  | Some x => ret x
  | None => throw SyntaxError
  end.

(** [JSON.stringify(v)] *)
Definition stringify (v : JsVal) : JsVal :=
  match JSON_stringify v with
  | Some s => JStr s
  | None => JUndefined
  end.

Definition validateAndSetAuth (storedToken storedUser : JsVal) : Proc bool :=
  try_catch
    (ApiService.setAuthToken storedToken ;;
     profileResponse <- ApiService.getProfile ;;
     if (status profileResponse =? 200)%Z then
       (setToken storedToken ;;
        u <- parse storedUser ;;
        setUser u ;;
        ret true)
     else
       (clearStoredAuth ;;
        ret false))
    (λ error,
       clearStoredAuth ;;
       ret false).

Definition loadStoredAuth : Proc () :=
  try_finally
    (try_catch
       (b <- isWeb ;;
        storedToken <- (if b then localStorage.getItem "authToken"
                        else SecureStore.getItemAsync "authToken") ;;
        storedUser <- (if b then localStorage.getItem "userData"
                       else SecureStore.getItemAsync "userData") ;;
        if truthy storedToken && truthy storedUser then
          (_ <- validateAndSetAuth storedToken storedUser ;; ret ())
        else ret ())
       (λ error, ret ()))
    (setIsLoading false).

(** The block that persists the pair after login and after register. *)
Definition storeAuthData (authToken userData : JsVal) : Proc () :=
  b <- isWeb ;;
  if b then
    (localStorage.setItem "authToken" authToken ;;
     localStorage.setItem "userData" (stringify userData))
  else
    (SecureStore.setItemAsync "authToken" authToken ;;
     SecureStore.setItemAsync "userData" (stringify userData)).

Definition login (email password : string) : Proc AuthResult :=
  try_catch
    (response <- ApiService.login email password ;;
     authToken <- get_prop (data response) "token" ;;
     userData <- get_prop (data response) "user" ;;
     storeAuthData authToken userData ;;
     setToken authToken ;;
     setUser userData ;;
     ApiService.setAuthToken authToken ;;
     ret {| success := true; error := JUndefined |})
    (λ error,
       ret {| success := false;
              error := or_else (error_message error) (JStr "Login failed") |}).

Definition register (userData : JsVal) : Proc AuthResult :=
  try_catch
    (response <- ApiService.register userData ;;
     authToken <- get_prop (data response) "token" ;;
     newUser <- get_prop (data response) "user" ;;
     storeAuthData authToken newUser ;;
     setToken authToken ;;
     setUser newUser ;;
     ApiService.setAuthToken authToken ;;
     ret {| success := true; error := JUndefined |})
    (λ error,
       ret {| success := false;
              error := or_else (error_message error) (JStr "Registration failed") |}).

Definition logout : Proc () :=
  try_finally
    (try_catch
       (_ <- ApiService.logout ;; ret ())
       (λ error, ret ()))
    (b <- isWeb ;;
     (if b then
        (localStorage.removeItem "authToken" ;;
         localStorage.removeItem "userData")
      else
        (SecureStore.deleteItemAsync "authToken" ;;
         SecureStore.deleteItemAsync "userData")) ;;
     setToken JNull ;;
     setUser JNull ;;
     ApiService.setAuthToken JNull).

Definition updateProfile (profileData : JsVal) : Proc AuthResult :=
  try_catch
    (response <- ApiService.updateProfile profileData ;;
     updatedUser <- get_prop (data response) "user" ;;
     b <- isWeb ;;
     (if b then localStorage.setItem "userData" (stringify updatedUser)
      else SecureStore.setItemAsync "userData" (stringify updatedUser)) ;;
     setUser updatedUser ;;
     ret {| success := true; error := JUndefined |})
    (λ error,
       ret {| success := false;
              error := or_else (error_message error) (JStr "Profile update failed") |}).

End WithJSON.

(** [createContext({})]: the value [useContext] gives outside every
    provider. *)
Definition defaultContext : JsVal := JObj [].

(** [useContext(AuthContext)]: the value of the nearest provider, if there
    is one. *)
Definition useContext (provider : option JsVal) : JsVal :=
  default defaultContext provider.

(** [useAuth()]: [None] is the thrown
    [Error('useAuth must be used within an AuthProvider')]. *)
Definition useAuth (provider : option JsVal) : option JsVal :=
  let context := useContext provider in
  if negb (truthy context) then None else Some context.

End AuthContext.

(* ===================================================================== *)
(** ** screens/auth/RegisterScreen.js: the registration screen *)
(* ===================================================================== *)

Module RegisterScreen.

Record FormData := {
  student_id : string;
  email : string;
  password : string;
  password_confirm : string;
  first_name : string;
  last_name : string;
  course : string;
  year_level : string
}.

(** The [formData] object, as passed to [register]. *)
Definition toObject (f : FormData) : JsVal :=
  JObj [("student_id", JStr (student_id f));
        ("email", JStr (email f));
        ("password", JStr (password f));
        ("password_confirm", JStr (password_confirm f));
        ("first_name", JStr (first_name f));
        ("last_name", JStr (last_name f));
        ("course", JStr (course f));
        ("year_level", JStr (year_level f))].

(** [!s] on a string *)
Definition empty (s : string) : bool := String.eqb s "".

Definition setLoading (b : bool) : Proc () := modify (with_registerLoading b).

Definition validateForm (formData : FormData) : Proc bool :=
  if empty (student_id formData) || empty (email formData)
     || empty (password formData) || empty (password_confirm formData)
     || empty (first_name formData) || empty (last_name formData)
  then
    Alert_alert "Error" (JStr "Please fill in all required fields") ;;
    ret false
  else if negb (String.eqb (password formData) (password_confirm formData))
  then
    Alert_alert "Error" (JStr "Passwords do not match") ;;
    ret false
  else if (code_units (password formData) <? 6)%nat
  then
    Alert_alert "Error" (JStr "Password must be at least 6 characters") ;;
    ret false
  else if negb (includes (toLowerCase (email formData)) "@evsu.edu.ph")
          && negb (includes (toLowerCase (email formData)) "@student.evsu.edu.ph")
  then
    Alert_alert "Error" (JStr "Please use your EVSU email address") ;;
    ret false
  else ret true.

Section WithJSON.
Context `{JSON}.

Definition handleRegister (formData : FormData) : Proc () :=
  valid <- validateForm formData ;;
  if negb valid then ret ()
  else
    setLoading true ;;
    result <- AuthContext.register (toObject formData) ;;
    setLoading false ;;
    if AuthContext.success result then
      Alert_alert "Success"
        (JStr "Registration successful! Welcome to Konsultabot.")
    else
      Alert_alert "Registration Failed" (AuthContext.error result).

End WithJSON.

End RegisterScreen.

(* ===================================================================== *)
(** ** screens/auth/RegisterScreen.js: the login screen *)
(* ===================================================================== *)

Module LoginScreen.

Definition setLoading (b : bool) : Proc () := modify (with_loginLoading b).

Section WithJSON.
Context `{JSON}.

(** The screen holds [email] and [password]; there is no confirmation
    field. *)
Definition handleLogin (email password : string) : Proc () :=
  if RegisterScreen.empty email || RegisterScreen.empty password then
    Alert_alert "Error" (JStr "Please fill in all fields")
  else
    setLoading true ;;
    result <- AuthContext.login email password ;;
    setLoading false ;;
    if negb (AuthContext.success result) then
      Alert_alert "Login Failed" (AuthContext.error result)
    else ret ().

End WithJSON.

End LoginScreen.

(* ===================================================================== *)
(** ** The chat screen *)
(* ===================================================================== *)

Module ChatScreen.

(** [useState([])], [useState('')], [useState(false)],
    [useState('english')], [useState(null)] *)
Definition initial : ChatState :=
  {| messages := []; inputText := ""; loading := false;
     language := "english"; sessionId := JNull |}.

Definition setMessages (f : list Message → list Message) : Proc () :=
  modify (with_chat (λ c,
    {| messages := f (messages c); inputText := inputText c;
       loading := loading c; language := language c;
       sessionId := sessionId c |})).

Definition setInputText (s : string) : Proc () :=
  modify (with_chat (λ c,
    {| messages := messages c; inputText := s;
       loading := loading c; language := language c;
       sessionId := sessionId c |})).

Definition setLoading (b : bool) : Proc () :=
  modify (with_chat (λ c,
    {| messages := messages c; inputText := inputText c;
       loading := b; language := language c;
       sessionId := sessionId c |})).

Definition setLanguage (l : string) : Proc () :=
  modify (with_chat (λ c,
    {| messages := messages c; inputText := inputText c;
       loading := loading c; language := l;
       sessionId := sessionId c |})).

Definition setSessionId (v : JsVal) : Proc () :=
  modify (with_chat (λ c,
    {| messages := messages c; inputText := inputText c;
       loading := loading c; language := language c;
       sessionId := v |})).

Definition Speech_speak (v : JsVal) : Proc () := modify (with_spoken v).

Definition welcome_text : string :=
  "Welcome to Konsultabot! I'm your AI assistant for EVSU Dulag campus. How can I help you today?".

Definition welcomeMessage (now : Z) : Message :=
  {| id := "welcome"; text := JStr welcome_text; isBot := true;
     timestamp := now; msg_language := JUndefined; mode := JUndefined;
     confidence := JUndefined; isError := false |}.

(** The mount effect: [setMessages([welcomeMessage])]. *)
Definition mount : Proc () :=
  now <- Date_now ;;
  setMessages (λ _, [welcomeMessage now]).

Definition userMessage (now : Z) (trimmed : string) (date : Z) : Message :=
  {| id := Number_toString now; text := JStr trimmed; isBot := false;
     timestamp := date; msg_language := JUndefined; mode := JUndefined;
     confidence := JUndefined; isError := false |}.

Definition botMessage (now : Z) (response : JsVal) (date : Z)
    (lang mode confidence : JsVal) : Message :=
  {| id := Number_toString (now + 1); text := response; isBot := true;
     timestamp := date; msg_language := lang; mode := mode;
     confidence := confidence; isError := false |}.

Definition errorMessage (now : Z) (date : Z) : Message :=
  {| id := Number_toString (now + 1);
     text := JStr "Sorry, I encountered an error. Please try again.";
     isBot := true; timestamp := date; msg_language := JUndefined;
     mode := JUndefined; confidence := JUndefined; isError := true |}.

(** [sendMessage]: [inputText], [language] and [sessionId] are the values
    of the render in which the handler was created. *)
Definition sendMessage : Proc () :=
  inputText <- read (λ w, inputText (chat w)) ;;
  language <- read (λ w, language (chat w)) ;;
  sessionId <- read (λ w, sessionId (chat w)) ;;
  if String.eqb (trim inputText) "" then ret ()
  else
    now <- Date_now ;;
    date <- Date_now ;;
    setMessages (λ prev, prev ++ [userMessage now (trim inputText) date]) ;;
    setInputText "" ;;
    setLoading true ;;
    try_finally
      (try_catch
         (response <- ApiService.sendMessage (trim inputText) language sessionId ;;
          (if negb (truthy sessionId) then
             (sid <- get_prop (data response) "session_id" ;;
              setSessionId sid)
           else ret ()) ;;
          now <- Date_now ;;
          text <- get_prop (data response) "response" ;;
          date <- Date_now ;;
          lang <- get_prop (data response) "language" ;;
          mode <- get_prop (data response) "mode" ;;
          confidence <- get_prop (data response) "confidence" ;;
          setMessages (λ prev, prev ++ [botMessage now text date lang mode confidence]) ;;
          if String.eqb language "english" then
            (spoken <- get_prop (data response) "response" ;;
             Speech_speak spoken)
          else ret ())
         (λ error,
            now <- Date_now ;;
            date <- Date_now ;;
            setMessages (λ prev, prev ++ [errorMessage now date])))
      (setLoading false).

(** What the user does on the screen.  [Send] presses the send control and
    lets the request, if one is made, settle with the given outcome before
    anything else happens. *)
Inductive Event :=
| TypeText (s : string)
| SelectLanguage (l : string)
| Send (o : HttpOutcome).

Definition handle (e : Event) (w : World) : Step () :=
  match e with
  | TypeText s => setInputText s w
  | SelectLanguage l => setLanguage l w
  | Send o => run (sendMessage w) [o]
  end.

(** The requests made while handling one event. *)
Definition sent (e : Event) (w : World) : list Request :=
  match e with
  | Send o => requests (sendMessage w) [o]
  | _ => []
  end.

(** A conversation: the world after the events, and the requests made, in
    order. *)
Fixpoint play (es : list Event) (w : World) : World * list Request :=
  match es with
  | [] => (w, [])
  | e :: es' =>
      let '(w', rs) := play es' (world_of (handle e w)) in
      (w', sent e w ++ rs)
  end.

(** The language menu. *)
Definition languages : list (string * string) :=
  [("english", "English"); ("bisaya", "Bisaya"); ("waray", "Waray");
   ("tagalog", "Tagalog")].

(** The caption of the language button:
    [languages.find(lang => lang.value === language)?.label]. *)
Definition languageLabel (language : string) : JsVal :=
  match List.find (λ lang, String.eqb (fst lang) language) languages with
  | Some lang => JStr (snd lang)
  | None => JUndefined
  end.

(** The [disabled] prop of the send button: [loading || !inputText.trim()]. *)
Definition sendDisabled (c : ChatState) : bool :=
  loading c || String.eqb (trim (inputText c)) "".

End ChatScreen.

(* ===================================================================== *)
(** ** mobile/src/services/apiService.js: the mobile-only API client *)
(* ===================================================================== *)

Module MobileApiService.

(** The axios instance has the same two interceptors as the web-compatible
    client. *)
Definition api := ApiService.api.

(** [API_BASE_URL] *)
Definition API_BASE_URL (expoConfig : JsVal) : JsVal :=
  or_else (get_opt (get_opt expoConfig "extra") "apiUrl")
          (JStr "http://localhost:8000/api").

Definition login (email password : string) : Proc AxiosResponse :=
  api POST "/auth/login/"
      (JObj [("email", JStr email); ("password", JStr password)]).

Definition register (userData : JsVal) : Proc AxiosResponse :=
  api POST "/auth/register/" userData.

Definition logout : Proc AxiosResponse :=
  api POST "/auth/logout/" JUndefined.

Definition getProfile : Proc AxiosResponse :=
  api GET "/auth/profile/" JUndefined.

Definition updateProfile (profileData : JsVal) : Proc AxiosResponse :=
  api PUT "/auth/profile/update/" profileData.

(** [sendMessage(message, language = 'english', sessionId = null)]: the
    payload always has [session_id]; the default turns [undefined] into
    [null]. *)
Definition sendMessage (message language : string) (sessionId : JsVal)
  : Proc AxiosResponse :=
  api POST "/chat/send/"
      (JObj [("message", JStr message); ("language", JStr language);
             ("session_id", match sessionId with
                            | JUndefined => JNull
                            | v => v
                            end)]).

End MobileApiService.

(* ===================================================================== *)
(** ** The mobile-only AuthContext *)
(* ===================================================================== *)

(** The earlier version of the provider, which knows only SecureStore and
    restores the stored session without asking the server.  The API client
    it imports is a parameter: its four calls are the variables below;
    [setAuthToken] is the same in both clients. *)
Module MobileAuthContext.

Section WithClient.
Context `{JSON}.
Variable api_login : string → string → Proc AxiosResponse.
Variable api_register : JsVal → Proc AxiosResponse.
Variable api_logout : Proc AxiosResponse.
Variable api_updateProfile : JsVal → Proc AxiosResponse.

Definition loadStoredAuth : Proc () :=
  try_finally
    (try_catch
       (storedToken <- SecureStore.getItemAsync "authToken" ;;
        storedUser <- SecureStore.getItemAsync "userData" ;;
        if truthy storedToken && truthy storedUser then
          (AuthContext.setToken storedToken ;;
           u <- AuthContext.parse storedUser ;;
           AuthContext.setUser u ;;
           ApiService.setAuthToken storedToken)
        else ret ())
       (λ error, ret ()))
    (AuthContext.setIsLoading false).

Definition login (email password : string) : Proc AuthContext.AuthResult :=
  try_catch
    (response <- api_login email password ;;
     authToken <- get_prop (data response) "token" ;;
     userData <- get_prop (data response) "user" ;;
     SecureStore.setItemAsync "authToken" authToken ;;
     SecureStore.setItemAsync "userData" (AuthContext.stringify userData) ;;
     AuthContext.setToken authToken ;;
     AuthContext.setUser userData ;;
     ApiService.setAuthToken authToken ;;
     ret {| AuthContext.success := true; AuthContext.error := JUndefined |})
    (λ error,
       ret {| AuthContext.success := false;
              AuthContext.error :=
                or_else (error_message error) (JStr "Login failed") |}).

Definition register (userData : JsVal) : Proc AuthContext.AuthResult :=
  try_catch
    (response <- api_register userData ;;
     authToken <- get_prop (data response) "token" ;;
     newUser <- get_prop (data response) "user" ;;
     SecureStore.setItemAsync "authToken" authToken ;;
     SecureStore.setItemAsync "userData" (AuthContext.stringify newUser) ;;
     AuthContext.setToken authToken ;;
     AuthContext.setUser newUser ;;
     ApiService.setAuthToken authToken ;;
     ret {| AuthContext.success := true; AuthContext.error := JUndefined |})
    (λ error,
       ret {| AuthContext.success := false;
              AuthContext.error :=
                or_else (error_message error) (JStr "Registration failed") |}).

Definition logout : Proc () :=
  try_finally
    (try_catch
       (_ <- api_logout ;; ret ())
       (λ error, ret ()))
    (SecureStore.deleteItemAsync "authToken" ;;
     SecureStore.deleteItemAsync "userData" ;;
     AuthContext.setToken JNull ;;
     AuthContext.setUser JNull ;;
     ApiService.setAuthToken JNull).

Definition updateProfile (profileData : JsVal) : Proc AuthContext.AuthResult :=
  try_catch
    (response <- api_updateProfile profileData ;;
     updatedUser <- get_prop (data response) "user" ;;
     SecureStore.setItemAsync "userData" (AuthContext.stringify updatedUser) ;;
     AuthContext.setUser updatedUser ;;
     ret {| AuthContext.success := true; AuthContext.error := JUndefined |})
    (λ error,
       ret {| AuthContext.success := false;
              AuthContext.error :=
                or_else (error_message error) (JStr "Profile update failed") |}).

End WithClient.

End MobileAuthContext.

(* ===================================================================== *)
(** ** App.js *)
(* ===================================================================== *)

Module App.

(** What [AppContent] renders. *)
Inductive Screen :=
| Nothing            (* [return null] *)
| Main               (* [<MainNavigator />] *)
| Auth.              (* [<AuthNavigator />] *)

(** [AppContent], from the [user] and [isLoading] of the provider. *)
Definition AppContent (a : AuthState) : Screen :=
  if isLoading a then Nothing
  else if truthy (user a) then Main
  else Auth.

End App.

(* ===================================================================== *)
(** ** mobile/src/navigation/MainNavigator.js *)
(* ===================================================================== *)

Module MainNavigator.

(** The names of the [Tab.Screen]s. *)
Definition tabs : list string := ["Chat"; "History"; "Profile"].

(** The [iconName] that [tabBarIcon] computes; [JUndefined] when no branch
    assigns it. *)
Definition iconName (routeName : string) (focused : bool) : JsVal :=
  if String.eqb routeName "Chat" then
    JStr (if focused then "chatbubbles" else "chatbubbles-outline")
  else if String.eqb routeName "History" then
    JStr (if focused then "time" else "time-outline")
  else if String.eqb routeName "Profile" then
    JStr (if focused then "person" else "person-outline")
  else JUndefined.

End MainNavigator.

(* ===================================================================== *)
(** ** Vocabulary of the properties *)
(* ===================================================================== *)

(** The world in which the application starts: nothing has run yet. *)
Definition boot (s : Store) (clk : nat → Z) : World :=
  {| store := s; auth := AuthContext.initial; authToken := JUndefined;
     chat := ChatScreen.initial; registerLoading := false;
     loginLoading := false; alerts := []; spoken := []; clock := clk;
     ticks := 0 |}.

(** Neither credential is in the backend in use. *)
Definition cleared (w : World) : Prop :=
  credentials w !! "authToken" = None ∧ credentials w !! "userData" = None.

Definition unauthenticated (w : World) : Prop :=
  user (auth w) = JNull ∧ token (auth w) = JNull.

(** The profile fetch does not validate the token: the request is rejected,
    or it resolves with a status other than 200. *)
Definition profile_fetch_fails (o : HttpOutcome) : Prop :=
  match o with
  | Resolved r => status r ≠ 200%Z
  | Rejected _ => True
  end.

(** The request was rejected with a 401 response. *)
Definition rejected_401 (o : HttpOutcome) : bool :=
  match o with
  | Resolved _ => false
  | Rejected resp => response_status_is resp 401
  end.

Definition profile_request (tok : string) : Request :=
  {| method := GET; url := "/users/profile/"; body := JUndefined;
     authorization := Some ("Token " +:+ tok) |}.

(** A stand-in for the platform's JSON functions on the literals [null],
    [true] and [false], to run the model on concrete inputs.  It has the two
    facts the examples use: [JSON.parse] throws on the text [undefined], and
    [JSON.stringify(undefined)] is [undefined].  Every general statement
    below holds for all instances of [JSON]. *)
Definition literal_parse (s : string) : option JsVal :=
  if String.eqb s "null" then Some JNull
  else if String.eqb s "true" then Some (JBool true)
  else if String.eqb s "false" then Some (JBool false)
  else None.

Definition literal_stringify (v : JsVal) : option string :=
  match v with
  | JNull => Some "null"
  | JBool true => Some "true"
  | JBool false => Some "false"
  | _ => None
  end.

Definition literal_JSON : JSON :=
  {| JSON_parse := literal_parse; JSON_stringify := literal_stringify |}.

(** Sample inputs. *)
Definition web_store (token user : string) : Store :=
  {| web := true;
     localStorage := <["authToken" := token]> (<["userData" := user]> ∅);
     secureStore := ∅ |}.

Definition native_store (token user : string) : Store :=
  {| web := false;
     localStorage := ∅;
     secureStore := <["authToken" := token]> (<["userData" := user]> ∅) |}.

Definition midnight : nat → Z := λ _, 0%Z.

(** The property [p] of an object, if it has one; used to word properties. *)
Fixpoint lookup_field (p : string) (fs : list (string * JsVal)) : option JsVal :=
  match fs with
  | [] => None
  | (k, v) :: fs' => if String.eqb k p then Some v else lookup_field p fs'
  end.

(** The failure message in the words of the specification: the [message]
    field of the server error payload if it is present, and otherwise the
    fallback. *)
Definition message_if_present (resp : option AxiosResponse) (fallback : string)
  : JsVal :=
  match resp with
  | Some {| data := JObj fs |} =>
      match lookup_field "message" fs with
      | Some m => m
      | None => JStr fallback
      end
  | _ => JStr fallback
  end.

(** The failure message of the amended claim: the [message] field when it is
    truthy, and otherwise the fallback. *)
Definition message_or_fallback (resp : option AxiosResponse) (fallback : string)
  : JsVal :=
  let m := match resp with
           | Some r => get_opt (data r) "message"
           | None => JUndefined
           end in
  if truthy m then m else JStr fallback.

Definition failure (resp : option AxiosResponse) (fallback : string)
  : AuthContext.AuthResult :=
  {| AuthContext.success := false;
     AuthContext.error := message_or_fallback resp fallback |}.

(** A 400 answer whose payload has an empty [message]. *)
Definition empty_message_response : option AxiosResponse :=
  Some {| status := 400; data := JObj [("message", JStr "")] |}.

(** A complete form whose address has the institutional domain in the
    middle, not at the end. *)
Definition foreign_form : RegisterScreen.FormData :=
  {| RegisterScreen.student_id := "2021-00123";
     RegisterScreen.email := "juan@evsu.edu.ph.example.com";
     RegisterScreen.password := "secret1";
     RegisterScreen.password_confirm := "secret1";
     RegisterScreen.first_name := "Juan";
     RegisterScreen.last_name := "Dela Cruz";
     RegisterScreen.course := "BSIT";
     RegisterScreen.year_level := "2" |}.

(** A complete form whose confirmation differs from the password. *)
Definition mismatched_form : RegisterScreen.FormData :=
  {| RegisterScreen.student_id := "2021-00123";
     RegisterScreen.email := "juan@evsu.edu.ph";
     RegisterScreen.password := "secret1";
     RegisterScreen.password_confirm := "secret2";
     RegisterScreen.first_name := "Juan";
     RegisterScreen.last_name := "Dela Cruz";
     RegisterScreen.course := "BSIT";
     RegisterScreen.year_level := "2" |}.

Definition register_request (w : World) (f : RegisterScreen.FormData) : Request :=
  {| method := POST; url := "/users/register/";
     body := RegisterScreen.toObject f;
     authorization := ApiService.request_interceptor w |}.

Definition login_request (w : World) (email password : string) : Request :=
  {| method := POST; url := "/users/login/";
     body := JObj [("email", JStr email); ("password", JStr password)];
     authorization := ApiService.request_interceptor w |}.

(** The [session_id] of a request payload, if the payload has one. *)
Definition payload_session_id (req : Request) : option JsVal :=
  match body req with
  | JObj fs => lookup_field "session_id" fs
  | _ => None
  end.

(** What a send leaves in [sessionId] when it started from a falsy one. *)
Definition captured (w : World) (o : HttpOutcome) : JsVal :=
  if String.eqb (trim (inputText (chat w))) "" then sessionId (chat w)
  else match o with
       | Resolved r =>
           if nullish (data r) then sessionId (chat w)
           else get_opt (data r) "session_id"
       | Rejected _ => sessionId (chat w)
       end.

(** The request succeeded and the answer has a payload to read from. *)
Definition answered (o : HttpOutcome) : bool :=
  match o with
  | Resolved r => negb (nullish (data r))
  | Rejected _ => false
  end.

(** The text of the entry that follows the user's message: the [response]
    field of the answer, or the apology. *)
Definition reply_text (o : HttpOutcome) : JsVal :=
  match o with
  | Resolved r =>
      if nullish (data r)
      then JStr "Sorry, I encountered an error. Please try again."
      else get_opt (data r) "response"
  | Rejected _ => JStr "Sorry, I encountered an error. Please try again."
  end.

(** A successful answer without a [session_id], and one with. *)
Definition answer_without_session : HttpOutcome :=
  Resolved {| status := 200;
              data := JObj [("response", JStr "Hello!");
                            ("language", JStr "english");
                            ("mode", JStr "online");
                            ("confidence", JNum 1)] |}.

Definition answer_with_session (sid : string) : HttpOutcome :=
  Resolved {| status := 200;
              data := JObj [("response", JStr "The library opens at 8.");
                            ("session_id", JStr sid);
                            ("language", JStr "english");
                            ("mode", JStr "online");
                            ("confidence", JNum 1)] |}.

(** The chat screen right after its mount effect. *)
Definition chat_opened (clk : nat → Z) : World :=
  world_of (ChatScreen.mount (boot (native_store "" "") clk)).

(** The opened chat screen with [s] typed into the input. *)
Definition chat_typed (s : string) : World :=
  world_of (ChatScreen.setInputText s (chat_opened midnight)).

(** A world in which the conversation already has the session id [sid]. *)
Definition chat_in_session (sid : string) : World :=
  world_of (ChatScreen.setSessionId (JStr sid) (chat_opened midnight)).

(** Clock readings, in milliseconds since the epoch, in which the second
    message is sent one millisecond after the first answer arrived: the
    screen is mounted at ...1000, the first message is sent at ...5000, its
    answer arrives at ...5400, the second message is sent at ...5401 and its
    answer arrives at ...9000. *)
Definition tight_clock (n : nat) : Z :=
  nth n [1700000001000;
         1700000005000; 1700000005000;
         1700000005400; 1700000005400;
         1700000005401; 1700000005401]%Z
      1700000009000%Z.

Definition two_turns : list ChatScreen.Event :=
  [ChatScreen.TypeText "Where is the library?";
   ChatScreen.Send answer_without_session;
   ChatScreen.TypeText "When does it open?";
   ChatScreen.Send (answer_with_session "s-2")].

(** The same two turns when the first answer carries an empty
    [session_id]. *)
Definition two_turns_empty_id : list ChatScreen.Event :=
  [ChatScreen.TypeText "Where is the library?";
   ChatScreen.Send (answer_with_session "");
   ChatScreen.TypeText "When does it open?";
   ChatScreen.Send (answer_with_session "s-2")].

(** A second stand-in for the JSON functions, which also knows the empty
    record: [{}]. *)
Definition record_parse (s : string) : option JsVal :=
  if String.eqb s "{}" then Some (JObj []) else literal_parse s.

Definition record_stringify (v : JsVal) : option string :=
  match v with
  | JObj [] => Some "{}"
  | _ => literal_stringify v
  end.

Definition record_JSON : JSON :=
  {| JSON_parse := record_parse; JSON_stringify := record_stringify |}.

(** The result of a successful operation: [{ success: true }]. *)
Definition succeeded : AuthContext.AuthResult :=
  {| AuthContext.success := true; AuthContext.error := JUndefined |}.

(** The answer to a successful login or registration. *)
Definition session_answer (tok : string) (u : JsVal) : AxiosResponse :=
  {| status := 200; data := JObj [("token", JStr tok); ("user", u)] |}.

(** The credential [key] is stored and not empty. *)
Definition has_credential (w : World) (key : string) : bool :=
  truthy (stored (credentials w) key).

(** The provider state with [isLoading] off. *)
Definition loaded (w : World) : World :=
  with_auth (λ a, {| user := user a; token := token a; isLoading := false |}) w.

(** What the registration form must satisfy for [validateForm] to let it
    through. *)
Definition acceptable (f : RegisterScreen.FormData) : bool :=
  negb (RegisterScreen.empty (RegisterScreen.student_id f))
  && negb (RegisterScreen.empty (RegisterScreen.email f))
  && negb (RegisterScreen.empty (RegisterScreen.password f))
  && negb (RegisterScreen.empty (RegisterScreen.password_confirm f))
  && negb (RegisterScreen.empty (RegisterScreen.first_name f))
  && negb (RegisterScreen.empty (RegisterScreen.last_name f))
  && String.eqb (RegisterScreen.password f) (RegisterScreen.password_confirm f)
  && (6 <=? code_units (RegisterScreen.password f))%nat
  && (includes (toLowerCase (RegisterScreen.email f)) "@evsu.edu.ph"
      || includes (toLowerCase (RegisterScreen.email f)) "@student.evsu.edu.ph").

(** The form with another address. *)
Definition with_email (e : string) (f : RegisterScreen.FormData)
  : RegisterScreen.FormData :=
  {| RegisterScreen.student_id := RegisterScreen.student_id f;
     RegisterScreen.email := e;
     RegisterScreen.password := RegisterScreen.password f;
     RegisterScreen.password_confirm := RegisterScreen.password_confirm f;
     RegisterScreen.first_name := RegisterScreen.first_name f;
     RegisterScreen.last_name := RegisterScreen.last_name f;
     RegisterScreen.course := RegisterScreen.course f;
     RegisterScreen.year_level := RegisterScreen.year_level f |}.

(** A complete, well-formed registration form. *)
Definition valid_form : RegisterScreen.FormData :=
  {| RegisterScreen.student_id := "2021-00123";
     RegisterScreen.email := "juan@evsu.edu.ph";
     RegisterScreen.password := "secret1";
     RegisterScreen.password_confirm := "secret1";
     RegisterScreen.first_name := "Juan";
     RegisterScreen.last_name := "Dela Cruz";
     RegisterScreen.course := "";
     RegisterScreen.year_level := "" |}.

(** The send-message request of the chat screen in world [w]. *)
Definition chat_request (w : World) : Request :=
  {| method := POST; url := "/chat/send/";
     body := JObj ([("message", JStr (trim (inputText (chat w))));
                    ("language", JStr (language (chat w)))]
                   ++ if truthy (sessionId (chat w))
                      then [("session_id", sessionId (chat w))]
                      else []);
     authorization := ApiService.request_interceptor w |}.

(** What a send adds to the spoken texts. *)
Definition spoken_reply (w : World) (o : HttpOutcome) : list JsVal :=
  match o with
  | Resolved r =>
      if String.eqb (language (chat w)) "english" && negb (nullish (data r))
      then [get_opt (data r) "response"]
      else []
  | Rejected _ => []
  end.

(** The [isBot] flags of [n] exchanges: a user message, then a bot entry. *)
Fixpoint exchanges (n : nat) : list bool :=
  match n with
  | O => []
  | S n' => false :: true :: exchanges n'
  end.

(** The event picks a language from the menu, if it picks one. *)
Definition from_menu (e : ChatScreen.Event) : Prop :=
  match e with
  | ChatScreen.SelectLanguage l => In l (map fst ChatScreen.languages)
  | _ => True
  end.

(** A request built by the API client. *)
Definition request_with (m : Method) (u : string) (b : JsVal)
    (header : option string) : Request :=
  {| method := m; url := u; body := b; authorization := header |}.

(** What the answer [o] to a send made in world [w] leaves in [sessionId]
    when it arrives in world [w2]: a send made with a truthy id leaves the
    id of [w2] alone; a send made with a falsy id sets it to the
    [session_id] field of a successful answer with a payload. *)
Definition settled_id (w : World) (o : HttpOutcome) (w2 : World) : JsVal :=
  if truthy (sessionId (chat w)) then sessionId (chat w2)
  else match o with
       | Resolved r =>
           if nullish (data r) then sessionId (chat w2)
           else get_opt (data r) "session_id"
       | Rejected _ => sessionId (chat w2)
       end.

(** The continuation of a suspended computation, run on the outcome [o] in
    the world [w]. *)
Definition resume {A} (s : Step A) (o : HttpOutcome) (w : World) : Step A :=
  match s with
  | Done _ _ => s
  | Await _ _ k => k o w
  end.

(** Two sends in flight: the first message is sent, the second is typed
    and sent before the first answer arrives. *)
Definition first_send : Step () :=
  ChatScreen.sendMessage (chat_typed "Where is the library?").

Definition second_send : Step () :=
  ChatScreen.sendMessage
    (world_of (ChatScreen.setInputText "When does it open?"
                 (world_of first_send))).

(** Some strings outside ASCII, by their UTF-8 bytes. *)
Definition utf8 (bytes : list nat) : string :=
  fold_right (λ n s, String (Ascii.ascii_of_nat n) s) "" bytes.

(** U+00A0, the no-break space, and U+3000, the ideographic space. *)
Definition nbsp : string := utf8 [194; 160].
Definition ideographic_space : string := utf8 [227; 128; 128].

(** The password [₱1234]: five characters, seven bytes. *)
Definition peso_password : string := utf8 [226; 130; 177; 49; 50; 51; 52].

Definition peso_form : RegisterScreen.FormData :=
  {| RegisterScreen.student_id := "2021-00123";
     RegisterScreen.email := "juan@evsu.edu.ph";
     RegisterScreen.password := peso_password;
     RegisterScreen.password_confirm := peso_password;
     RegisterScreen.first_name := "Juan";
     RegisterScreen.last_name := "Dela Cruz";
     RegisterScreen.course := "";
     RegisterScreen.year_level := "" |}.

(* ===================================================================== *)
(** ** The JavaScript helpers on sample inputs *)
(* ===================================================================== *)

Example trim_both_ends :
  trim (String (Ascii.ascii_of_nat 9) "  When does it open? ")
  = "When does it open?".
Proof. reflexivity. Qed.

Example trim_blank : trim "   " = "".
Proof. reflexivity. Qed.

Example trim_unicode_spaces :
  trim (nbsp +:+ " Hain an library? " +:+ ideographic_space)
  = "Hain an library?".
Proof. reflexivity. Qed.

Example trim_no_break_space_only : trim (nbsp +:+ nbsp) = "".
Proof. reflexivity. Qed.

Example trim_keeps_inner_and_accents :
  trim (utf8 [32; 110; 105; 195; 177; 111; 32; 49; 32]) = utf8 [110; 105; 195; 177; 111; 32; 49].
Proof. reflexivity. Qed.

Example code_units_peso : code_units peso_password = 5%nat.
Proof. reflexivity. Qed.

Example code_units_outside_basic_plane :
  code_units (utf8 [240; 159; 152; 128; 97]) = 3%nat.
Proof. reflexivity. Qed.

Example toLowerCase_mixed : toLowerCase "Juan.Cruz@EVSU.edu.ph" = "juan.cruz@evsu.edu.ph".
Proof. reflexivity. Qed.

Example includes_middle : includes "juan@evsu.edu.ph.example.com" "@evsu.edu.ph" = true.
Proof. reflexivity. Qed.

Example includes_student_only : includes "ana@student.evsu.edu.ph" "@evsu.edu.ph" = false.
Proof. reflexivity. Qed.

Example endsWith_domain : endsWith "juan@evsu.edu.ph" "@evsu.edu.ph" = true.
Proof. reflexivity. Qed.

Example Number_toString_reading : Number_toString (5400 + 1) = "5401".
Proof. reflexivity. Qed.

Example ToString_array :
  ToString (JArr [JNum 1; JNull; JStr "a"; JArr [JBool true; JUndefined]])
  = "1,,a,true,".
Proof. reflexivity. Qed.

Example truthy_empty_string : truthy (JStr "") = false.
Proof. reflexivity. Qed.

Example get_on_null : get JNull "session_id" = None.
Proof. reflexivity. Qed.

Example get_missing : get (JObj [("response", JStr "Hello!")]) "session_id" = Some JUndefined.
Proof. reflexivity. Qed.

(* ===================================================================== *)
(** ** Session bootstrap *)
(* ===================================================================== *)

Lemma cleared_after_delete (m : gmap string string) :
  delete "userData" (delete "authToken" m) !! "authToken" = None
  ∧ delete "userData" (delete "authToken" m) !! "userData" = None.
Proof.
  split.
  - rewrite lookup_delete_ne by discriminate. apply lookup_delete_eq.
  - apply lookup_delete_eq.
Qed.

(** Bootstrap with both credentials stored and a failing profile fetch:
    the request carries the stored token, and the run ends normally with
    the store cleared, the provider state untouched except [isLoading], and
    the API client's token reset only by a 401. *)
Lemma loadStoredAuth_fetch_fails `{JSON} (w : World) (tok usr : string)
    (o : HttpOutcome) :
  credentials w !! "authToken" = Some tok → tok ≠ "" →
  credentials w !! "userData" = Some usr → usr ≠ "" →
  profile_fetch_fails o →
  ∃ w', run (AuthContext.loadStoredAuth w) [o] = Done w' (Ok ())
        ∧ requests (AuthContext.loadStoredAuth w) [o] = [profile_request tok]
        ∧ cleared w'
        ∧ user (auth w') = user (auth w)
        ∧ token (auth w') = token (auth w)
        ∧ isLoading (auth w') = false
        ∧ authToken w' = (if rejected_401 o then JNull else JStr tok).
Proof.
  intros Ht Htne Hu Hune Ho.
  unfold cleared, credentials in *.
  destruct w as [[wb ls ss] a at_ c rl ll al sp ck tk]; simpl in *.
  unfold AuthContext.loadStoredAuth, try_finally, try_catch, bind, isWeb, read.
  simpl.
  apply String.eqb_neq in Htne, Hune.
  destruct wb; simpl; unfold stored; rewrite Ht, Hu; simpl;
    rewrite Htne, Hune; simpl;
    unfold ApiService.request_interceptor, profile_request; simpl;
    rewrite Htne; simpl.
  all: destruct o as [r | resp]; simpl in *.
  all: try (destruct (Z.eqb_spec (status r) 200); [contradiction |]; simpl).
  all: try (destruct (response_status_is resp 401); simpl).
  all: eexists; split; [reflexivity |]; simpl.
  all: split; [reflexivity |].
  all: split; [apply cleared_after_delete |].
  all: repeat split; reflexivity.
Qed.

(** C1. When bootstrap finds both a stored token and a stored user record
    and the profile fetch fails (the request is rejected, or answers with a
    status other than 200), bootstrap ends normally, with the credential
    store cleared, user and token both null, and [isLoading] false. *)
Theorem bootstrap_validation_failure `{JSON} (w : World) (tok usr : string)
    (o : HttpOutcome) :
  auth w = AuthContext.initial →
  credentials w !! "authToken" = Some tok → tok ≠ "" →
  credentials w !! "userData" = Some usr → usr ≠ "" →
  profile_fetch_fails o →
  ∃ w', run (AuthContext.loadStoredAuth w) [o] = Done w' (Ok ())
        ∧ cleared w'
        ∧ unauthenticated w'
        ∧ isLoading (auth w') = false.
Proof.
  intros Hinit Ht Htne Hu Hune Ho.
  destruct (loadStoredAuth_fetch_fails w tok usr o Ht Htne Hu Hune Ho)
    as (w' & Hrun & _ & Hcl & Huser & Htoken & Hload & _).
  exists w'. unfold unauthenticated.
  rewrite Huser, Htoken, Hinit. simpl. auto.
Qed.

Lemma bootstrap_validation_failure_witness :
  ∃ w', run (AuthContext.loadStoredAuth (H := literal_JSON)
               (boot (native_store "abc" "null") midnight))
            [Rejected None]
        = Done w' (Ok ())
        ∧ cleared w'
        ∧ unauthenticated w'
        ∧ isLoading (auth w') = false.
Proof.
  apply (bootstrap_validation_failure (H := literal_JSON)
           (boot (native_store "abc" "null") midnight) "abc" "null"
           (Rejected None)).
  - reflexivity.
  - reflexivity.
  - discriminate.
  - reflexivity.
  - discriminate.
  - exact I.
Defined.

(** C10. When bootstrap finds both credentials and the profile fetch fails,
    the request was sent with the stored token, and afterwards the API
    client still holds that token unless the request was rejected with a
    401, in which case the response interceptor has reset it; in both cases
    user and token are null and the credential store is cleared. *)
Theorem stale_token_survives_bootstrap `{JSON} (w : World) (tok usr : string)
    (o : HttpOutcome) :
  auth w = AuthContext.initial →
  credentials w !! "authToken" = Some tok → tok ≠ "" →
  credentials w !! "userData" = Some usr → usr ≠ "" →
  profile_fetch_fails o →
  ∃ w', run (AuthContext.loadStoredAuth w) [o] = Done w' (Ok ())
        ∧ requests (AuthContext.loadStoredAuth w) [o] = [profile_request tok]
        ∧ authToken w' = (if rejected_401 o then JNull else JStr tok)
        ∧ unauthenticated w'
        ∧ cleared w'.
Proof.
  intros Hinit Ht Htne Hu Hune Ho.
  destruct (loadStoredAuth_fetch_fails w tok usr o Ht Htne Hu Hune Ho)
    as (w' & Hrun & Hreq & Hcl & Huser & Htoken & _ & Hapi).
  exists w'. unfold unauthenticated.
  rewrite Huser, Htoken, Hinit. simpl. repeat split; auto; apply Hcl.
Qed.

Lemma stale_token_survives_bootstrap_witness :
  ∃ w', run (AuthContext.loadStoredAuth (H := literal_JSON)
               (boot (web_store "abc" "null") midnight))
            [Rejected (Some {| status := 503; data := JUndefined |})]
        = Done w' (Ok ())
        ∧ requests (AuthContext.loadStoredAuth (H := literal_JSON)
                      (boot (web_store "abc" "null") midnight))
                   [Rejected (Some {| status := 503; data := JUndefined |})]
          = [profile_request "abc"]
        ∧ authToken w' = JStr "abc"
        ∧ unauthenticated w'
        ∧ cleared w'.
Proof.
  apply (stale_token_survives_bootstrap (H := literal_JSON)
           (boot (web_store "abc" "null") midnight) "abc" "null"
           (Rejected (Some {| status := 503; data := JUndefined |}))).
  - reflexivity.
  - reflexivity.
  - discriminate.
  - reflexivity.
  - discriminate.
  - exact I.
Defined.

(** Bootstrap when a credential is missing or empty: no request is made and
    only [isLoading] changes. *)
Lemma bootstrap_without_pair `{JSON} (w : World) :
  truthy (stored (credentials w) "authToken")
  && truthy (stored (credentials w) "userData") = false →
  AuthContext.loadStoredAuth w
  = Done (with_auth (λ a, {| user := user a; token := token a;
                             isLoading := false |}) w) (Ok ()).
Proof.
  intros Hpair. unfold credentials in Hpair.
  destruct w as [[wb ls ss] a at_ c rl ll al sp ck tk]; simpl in *.
  unfold AuthContext.loadStoredAuth, try_finally, try_catch, bind, isWeb, read.
  simpl.
  destruct wb; simpl; rewrite Hpair; reflexivity.
Qed.

(** Bootstrap when the profile fetch answers 200 and the stored user record
    parses: token and user are both restored and the store is untouched. *)
Lemma bootstrap_restores_pair `{JSON} (w : World) (tok usr : string)
    (r : AxiosResponse) (u : JsVal) :
  credentials w !! "authToken" = Some tok → tok ≠ "" →
  credentials w !! "userData" = Some usr → usr ≠ "" →
  status r = 200%Z →
  JSON_parse usr = Some u →
  ∃ w', run (AuthContext.loadStoredAuth w) [Resolved r] = Done w' (Ok ())
        ∧ token (auth w') = JStr tok
        ∧ user (auth w') = u
        ∧ isLoading (auth w') = false
        ∧ store w' = store w.
Proof.
  intros Ht Htne Hu Hune Hr Hparse.
  unfold credentials in *.
  destruct w as [[wb ls ss] a at_ c rl ll al sp ck tk]; simpl in *.
  unfold AuthContext.loadStoredAuth, try_finally, try_catch, bind, isWeb, read.
  simpl.
  apply String.eqb_neq in Htne, Hune.
  destruct wb; simpl; unfold stored; rewrite Ht, Hu; simpl;
    rewrite Htne, Hune; simpl; rewrite Hr; simpl;
    unfold AuthContext.parse; simpl; rewrite Hparse; simpl;
    eexists; (split; [reflexivity |]); simpl; auto.
Qed.

(** Bootstrap when the profile fetch answers 200 and [JSON.parse] throws on
    the stored user record: the token is set, the user is not, and the
    store is cleared. *)
Lemma loadStoredAuth_parse_fails `{JSON} (w : World) (tok usr : string)
    (r : AxiosResponse) :
  credentials w !! "authToken" = Some tok → tok ≠ "" →
  credentials w !! "userData" = Some usr → usr ≠ "" →
  status r = 200%Z →
  JSON_parse usr = None →
  ∃ w', run (AuthContext.loadStoredAuth w) [Resolved r] = Done w' (Ok ())
        ∧ token (auth w') = JStr tok
        ∧ user (auth w') = user (auth w)
        ∧ cleared w'.
Proof.
  intros Ht Htne Hu Hune Hr Hparse.
  unfold cleared, credentials in *.
  destruct w as [[wb ls ss] a at_ c rl ll al sp ck tk]; simpl in *.
  unfold AuthContext.loadStoredAuth, try_finally, try_catch, bind, isWeb, read.
  simpl.
  apply String.eqb_neq in Htne, Hune.
  destruct wb; simpl; unfold stored; rewrite Ht, Hu; simpl;
    rewrite Htne, Hune; simpl; rewrite Hr; simpl;
    unfold AuthContext.parse; simpl; rewrite Hparse; simpl;
    eexists; (split; [reflexivity |]); simpl;
    (split; [reflexivity |]); (split; [reflexivity |]);
    apply cleared_after_delete.
Qed.

(** C2, at the failing input.  When both credentials are stored, the profile
    fetch answers 200 and [JSON.parse] throws on the stored user record,
    bootstrap ends with the stored token in the provider state and no user:
    [setToken] has run before [JSON.parse], and the handler that clears the
    store does not take the token back. *)
Theorem bootstrap_partial_restore `{JSON} (w : World) (tok usr : string)
    (r : AxiosResponse) :
  auth w = AuthContext.initial →
  credentials w !! "authToken" = Some tok → tok ≠ "" →
  credentials w !! "userData" = Some usr → usr ≠ "" →
  status r = 200%Z →
  JSON_parse usr = None →
  ∃ w', run (AuthContext.loadStoredAuth w) [Resolved r] = Done w' (Ok ())
        ∧ token (auth w') = JStr tok
        ∧ user (auth w') = JNull
        ∧ cleared w'.
Proof.
  intros Hinit Ht Htne Hu Hune Hr Hparse.
  destruct (loadStoredAuth_parse_fails w tok usr r Ht Htne Hu Hune Hr Hparse)
    as (w' & Hrun & Htoken & Huser & Hcl).
  exists w'. rewrite Hinit in Huser. auto.
Qed.

Lemma bootstrap_partial_restore_witness :
  ∃ w', run (AuthContext.loadStoredAuth (H := literal_JSON)
               (boot (web_store "abc" "undefined") midnight))
            [Resolved {| status := 200; data := JObj [] |}]
        = Done w' (Ok ())
        ∧ token (auth w') = JStr "abc"
        ∧ user (auth w') = JNull
        ∧ cleared w'.
Proof.
  apply (bootstrap_partial_restore (H := literal_JSON)
           (boot (web_store "abc" "undefined") midnight) "abc" "undefined"
           {| status := 200; data := JObj [] |}).
  - reflexivity.
  - reflexivity.
  - discriminate.
  - reflexivity.
  - discriminate.
  - reflexivity.
  - reflexivity.
Defined.

(** How the record [undefined] gets into the store: on the web backend, a
    login whose response carries a token and no [user] field stores the
    text [undefined] under [userData]. *)
Lemma login_stores_undefined `{JSON} (w : World) (email password tok : string) :
  web (store w) = true →
  JSON_stringify JUndefined = None →
  ∃ w', run (AuthContext.login email password w)
            [Resolved {| status := 200; data := JObj [("token", JStr tok)] |}]
        = Done w' (Ok {| AuthContext.success := true;
                         AuthContext.error := JUndefined |})
        ∧ credentials w' !! "authToken" = Some tok
        ∧ credentials w' !! "userData" = Some "undefined".
Proof.
  intros Hweb Hs. unfold credentials.
  destruct w as [[wb ls ss] a at_ c rl ll al sp ck tk]; simpl in *.
  subst wb.
  unfold AuthContext.login, try_catch, bind. simpl.
  unfold AuthContext.stringify. rewrite Hs. simpl.
  eexists; split; [reflexivity |]. simpl. split.
  - rewrite lookup_insert_ne by discriminate. apply lookup_insert_eq.
  - apply lookup_insert_eq.
Qed.

(** From login to the next start on the web backend: a login whose response
    has no [user] field, followed by a bootstrap over the store it leaves,
    ends with the token restored and no user. *)
Lemma partial_restore_after_login `{JSON} (s : Store) (clk : nat → Z)
    (email password tok : string) (r : AxiosResponse) :
  web s = true → tok ≠ "" →
  JSON_stringify JUndefined = None →
  JSON_parse "undefined" = None →
  status r = 200%Z →
  ∃ w1 w2,
    run (AuthContext.login email password (boot s clk))
        [Resolved {| status := 200; data := JObj [("token", JStr tok)] |}]
    = Done w1 (Ok {| AuthContext.success := true;
                     AuthContext.error := JUndefined |})
    ∧ run (AuthContext.loadStoredAuth (boot (store w1) clk)) [Resolved r]
      = Done w2 (Ok ())
    ∧ token (auth w2) = JStr tok
    ∧ user (auth w2) = JNull.
Proof.
  intros Hweb Htok Hs Hp Hr.
  destruct (login_stores_undefined (boot s clk) email password tok Hweb Hs)
    as (w1 & Hlogin & Ht & Hu).
  assert (credentials (boot (store w1) clk) = credentials w1) as Hc
    by reflexivity.
  destruct (loadStoredAuth_parse_fails (boot (store w1) clk) tok "undefined" r)
    as (w2 & Hrun & Htoken & Huser & _);
    [rewrite Hc; exact Ht | exact Htok | rewrite Hc; exact Hu
     | discriminate | exact Hr | exact Hp |].
  exists w1, w2. auto.
Qed.

(** A login that succeeds with a token and a user record persists the pair
    in the backend in use, sets user and token, and hands the token to the
    API client. *)
Lemma login_success `{JSON} (w : World) (email password tok text : string)
    (u : JsVal) :
  JSON_stringify u = Some text →
  ∃ w', run (AuthContext.login email password w)
            [Resolved {| status := 200;
                         data := JObj [("token", JStr tok); ("user", u)] |}]
        = Done w' (Ok {| AuthContext.success := true;
                         AuthContext.error := JUndefined |})
        ∧ credentials w' !! "authToken" = Some tok
        ∧ credentials w' !! "userData" = Some text
        ∧ token (auth w') = JStr tok
        ∧ user (auth w') = u
        ∧ authToken w' = JStr tok.
Proof.
  intros Hs. unfold credentials.
  destruct w as [[wb ls ss] a at_ c rl ll al sp ck tk]; simpl in *.
  unfold AuthContext.login, try_catch, bind. simpl.
  unfold AuthContext.storeAuthData, AuthContext.stringify, bind, isWeb, read.
  rewrite Hs. simpl.
  destruct wb; simpl; eexists; (split; [reflexivity |]); simpl.
  all: split; [rewrite lookup_insert_ne by discriminate; apply lookup_insert_eq |].
  all: split; [apply lookup_insert_eq |].
  all: repeat split; reflexivity.
Qed.

(* ===================================================================== *)
(** ** Logout *)
(* ===================================================================== *)

(** C3. Whatever the outcome of the logout request, logout ends normally
    with both credentials deleted, user and token null and the API client's
    token null; the world reached is the same for every outcome. *)
Theorem logout_unconditional (w : World) (o : HttpOutcome) :
  ∃ w', run (AuthContext.logout w) [o] = Done w' (Ok ())
        ∧ cleared w'
        ∧ unauthenticated w'
        ∧ authToken w' = JNull
        ∧ ∀ o', run (AuthContext.logout w) [o'] = Done w' (Ok ()).
Proof.
  unfold cleared, unauthenticated, credentials.
  destruct w as [[wb ls ss] a at_ c rl ll al sp ck tk].
  unfold AuthContext.logout, try_finally, try_catch, bind, isWeb, read.
  simpl.
  exists (with_authToken JNull
            (with_auth (λ _, {| user := JNull; token := JNull;
                                isLoading := isLoading a |})
               (with_store (λ s,
                  {| web := wb;
                     localStorage :=
                       if wb then delete "userData" (delete "authToken" ls)
                       else ls;
                     secureStore :=
                       if wb then ss
                       else delete "userData" (delete "authToken" ss) |})
                  {| store := {| web := wb; localStorage := ls;
                                 secureStore := ss |};
                     auth := a; authToken := at_; chat := c;
                     registerLoading := rl; loginLoading := ll;
                     alerts := al; spoken := sp; clock := ck;
                     ticks := tk |}))).
  split; [| split; [| split; [| split]]].
  - destruct o as [r | resp]; simpl;
      [| destruct (response_status_is resp 401); simpl];
      destruct wb; reflexivity.
  - destruct wb; simpl; apply cleared_after_delete.
  - split; reflexivity.
  - reflexivity.
  - intros o'. destruct o' as [r | resp]; simpl;
      [| destruct (response_status_is resp 401); simpl];
      destruct wb; reflexivity.
Qed.

(* ===================================================================== *)
(** ** Failed login, register and update-profile *)
(* ===================================================================== *)

Lemma field_lookup_field (p : string) (fs : list (string * JsVal)) :
  field p fs = default JUndefined (lookup_field p fs).
Proof.
  induction fs as [| [k v] fs IH]; simpl; [reflexivity |].
  destruct (String.eqb k p); [reflexivity | exact IH].
Qed.

(** The response interceptor leaves everything but the API client's token
    alone. *)
Lemma response_interceptor_frame (o : HttpOutcome) (w : World) :
  let w' := world_of (ApiService.response_interceptor o w) in
  store w' = store w ∧ auth w' = auth w ∧ chat w' = chat w.
Proof.
  destruct o as [r | resp]; simpl; [auto |].
  unfold bind; simpl. destruct (response_status_is resp 401); simpl; auto.
Qed.

(** C8, amended.  When the request of login, register or update-profile is
    rejected, the operation returns [{ success: false, error }] where
    [error] is the [message] field of the error payload when that field is
    truthy and the operation's fallback otherwise, and the provider state
    and both storage backends are as before. *)
Theorem auth_failure_result `{JSON} (w : World) (resp : option AxiosResponse)
    (email password : string) (userData profileData : JsVal) :
  (∃ w', run (AuthContext.login email password w) [Rejected resp]
         = Done w' (Ok (failure resp "Login failed"))
         ∧ auth w' = auth w ∧ store w' = store w)
  ∧ (∃ w', run (AuthContext.register userData w) [Rejected resp]
           = Done w' (Ok (failure resp "Registration failed"))
           ∧ auth w' = auth w ∧ store w' = store w)
  ∧ (∃ w', run (AuthContext.updateProfile profileData w) [Rejected resp]
           = Done w' (Ok (failure resp "Profile update failed"))
           ∧ auth w' = auth w ∧ store w' = store w).
Proof.
  unfold AuthContext.login, AuthContext.register, AuthContext.updateProfile.
  unfold try_catch, bind, failure, message_or_fallback, or_else; simpl.
  unfold error_message; simpl.
  repeat split.
  all: destruct (response_status_is resp 401); simpl.
  all: eexists; split; [reflexivity |]; split; reflexivity.
Qed.

(** C8 as worded fails when the payload carries an empty [message]: the
    field is present, and the result carries the fallback instead. *)
Lemma empty_message_falls_back :
  message_if_present empty_message_response "Login failed" = JStr ""
  ∧ ∃ w', run (AuthContext.login (H := literal_JSON) "ana@evsu.edu.ph" "secret1"
                 (boot (web_store "" "") midnight))
              [Rejected empty_message_response]
          = Done w' (Ok {| AuthContext.success := false;
                           AuthContext.error := JStr "Login failed" |}).
Proof.
  split; [reflexivity |].
  eexists. reflexivity.
Qed.

(* ===================================================================== *)
(** ** Client-side validation *)
(* ===================================================================== *)

(** Case analysis on the check of [validateForm] that shows [msg]. *)
Ltac case_check msg :=
  match goal with
  | |- context [if ?b then bind (Alert_alert "Error" (JStr msg)) _ else _] =>
      destruct b eqn:?
  end.

(** A form that [validateForm] turns down: an alert is shown, nothing else
    changes, and no request is made. *)
Lemma handleRegister_invalid `{JSON} (f : RegisterScreen.FormData) (w w' : World) :
  RegisterScreen.validateForm f w = Done w' (Ok false) →
  RegisterScreen.handleRegister f w = Done w' (Ok ()).
Proof.
  intros Hv. unfold RegisterScreen.handleRegister, bind. rewrite Hv. reflexivity.
Qed.

(** An address that contains neither [@evsu.edu.ph] nor
    [@student.evsu.edu.ph] is turned down: submitting makes no request and
    changes nothing but the alert shown. *)
Lemma register_rejects_other_addresses `{JSON} (f : RegisterScreen.FormData)
    (w : World) :
  includes (toLowerCase (RegisterScreen.email f)) "@evsu.edu.ph" = false →
  includes (toLowerCase (RegisterScreen.email f)) "@student.evsu.edu.ph" = false →
  ∃ msg, RegisterScreen.handleRegister f w
         = Done (with_alert "Error" msg w) (Ok ()).
Proof.
  intros H1 H2.
  assert (∃ msg, RegisterScreen.validateForm f w
                 = Done (with_alert "Error" msg w) (Ok false)) as [msg Hv].
  { unfold RegisterScreen.validateForm.
    case_check "Please fill in all required fields"; [eexists; reflexivity |].
    case_check "Passwords do not match"; [eexists; reflexivity |].
    case_check "Password must be at least 6 characters";
      [eexists; reflexivity |].
    rewrite H1, H2. simpl. eexists; reflexivity. }
  exists msg. apply handleRegister_invalid, Hv.
Qed.

(** C6, at the failing input.  The address [juan@evsu.edu.ph.example.com]
    ends in neither institutional domain, yet submitting a form with it
    issues the register request: [validateForm] looks for the domain
    anywhere in the address. *)
Theorem register_accepts_foreign_suffix `{JSON} (w : World) :
  endsWith (toLowerCase (RegisterScreen.email foreign_form)) "@evsu.edu.ph" = false
  ∧ endsWith (toLowerCase (RegisterScreen.email foreign_form))
             "@student.evsu.edu.ph" = false
  ∧ ∃ k, RegisterScreen.handleRegister foreign_form w
         = Await (with_registerLoading true w)
                 (register_request w foreign_form) k.
Proof.
  split; [reflexivity |]. split; [reflexivity |].
  eexists. reflexivity.
Qed.

(** C7, amended.  A registration attempt whose password and confirmation
    differ makes no request: an alert is shown and nothing else changes. *)
Theorem mismatch_blocks_registration `{JSON} (f : RegisterScreen.FormData)
    (w : World) :
  RegisterScreen.password f ≠ RegisterScreen.password_confirm f →
  ∃ msg, RegisterScreen.handleRegister f w
         = Done (with_alert "Error" msg w) (Ok ()).
Proof.
  intros Hne.
  assert (∃ msg, RegisterScreen.validateForm f w
                 = Done (with_alert "Error" msg w) (Ok false)) as [msg Hv].
  { unfold RegisterScreen.validateForm.
    case_check "Please fill in all required fields"; [eexists; reflexivity |].
    apply String.eqb_neq in Hne. rewrite Hne. simpl. eexists; reflexivity. }
  exists msg. apply handleRegister_invalid, Hv.
Qed.

Lemma mismatch_blocks_registration_witness :
  ∃ msg, RegisterScreen.handleRegister (H := literal_JSON) mismatched_form
           (boot (native_store "" "") midnight)
         = Done (with_alert "Error" msg (boot (native_store "" "") midnight))
                (Ok ()).
Proof.
  apply (mismatch_blocks_registration (H := literal_JSON) mismatched_form
           (boot (native_store "" "") midnight)).
  discriminate.
Defined.

(** The login screen sends its request whenever both fields are filled in. *)
Lemma handleLogin_sends `{JSON} (email password : string) (w : World) :
  email ≠ "" → password ≠ "" →
  ∃ k, LoginScreen.handleLogin email password w
       = Await (with_loginLoading true w) (login_request w email password) k.
Proof.
  intros He Hp. apply String.eqb_neq in He, Hp.
  unfold LoginScreen.handleLogin, RegisterScreen.empty. rewrite He, Hp. simpl.
  eexists. reflexivity.
Qed.

(** C7 as worded fails: the login screen has no confirmation field, so a
    login attempt is sent whatever confirmation one has in mind. *)
Lemma login_ignores_confirmation :
  "secret1" ≠ "secret2"
  ∧ requests (LoginScreen.handleLogin (H := literal_JSON)
                "juan@evsu.edu.ph" "secret1"
                (boot (native_store "" "") midnight)) []
    = [login_request (boot (native_store "" "") midnight)
         "juan@evsu.edu.ph" "secret1"].
Proof.
  split; [discriminate | reflexivity].
Qed.

(* ===================================================================== *)
(** ** Chat session bookkeeping *)
(* ===================================================================== *)

(** C5. When the trimmed input is not empty, [sendMessage] has appended
    the user's message by the time it is suspended on the send-message
    request; whatever the outcome of the request, and whatever the screen
    state is by then, the continuation appends exactly one bot entry after
    it: the bot message when the request succeeded with a payload, the
    synthetic error message otherwise. *)
Theorem user_message_precedes_response (w : World) :
  trim (inputText (chat w)) ≠ "" →
  ∃ w1 req k um,
    ChatScreen.sendMessage w = Await w1 req k
    ∧ url req = "/chat/send/"
    ∧ messages (chat w1) = messages (chat w) ++ [um]
    ∧ isBot um = false
    ∧ text um = JStr (trim (inputText (chat w)))
    ∧ ∀ o w2, ∃ w3 reply,
        k o w2 = Done w3 (Ok ())
        ∧ messages (chat w3) = messages (chat w2) ++ [reply]
        ∧ isBot reply = true
        ∧ isError reply = negb (answered o)
        ∧ text reply = reply_text o.
Proof.
  intros Hne. apply String.eqb_neq in Hne.
  destruct w as [st a at_ [ms txt ld lang sid] rl ll al sp ck tk]; simpl in *.
  unfold ChatScreen.sendMessage, try_finally, try_catch, bind, read. simpl.
  rewrite Hne. simpl.
  do 4 eexists. split; [reflexivity |]. simpl.
  do 4 (split; [reflexivity |]).
  intros o w2.
  destruct o as [[stt d] | resp]; simpl.
  - unfold get_prop.
    destruct d; simpl; destruct (truthy sid); simpl;
      destruct (String.eqb lang "english"); simpl;
      do 2 eexists; (split; [reflexivity |]); simpl; auto.
  - destruct (response_status_is resp 401); simpl;
      do 2 eexists; (split; [reflexivity |]); simpl; auto.
Qed.

Lemma user_message_precedes_response_witness :
  ∃ w1 req k um,
    ChatScreen.sendMessage
      (chat_typed "  Where is the library? ")
    = Await w1 req k
    ∧ url req = "/chat/send/"
    ∧ messages (chat w1)
      = [ChatScreen.welcomeMessage 0] ++ [um]
    ∧ isBot um = false
    ∧ text um = JStr "Where is the library?"
    ∧ ∀ o w2, ∃ w3 reply,
        k o w2 = Done w3 (Ok ())
        ∧ messages (chat w3) = messages (chat w2) ++ [reply]
        ∧ isBot reply = true
        ∧ isError reply = negb (answered o)
        ∧ text reply = reply_text o.
Proof.
  apply (user_message_precedes_response
           (chat_typed "  Where is the library? ")).
  discriminate.
Defined.

(** Once the session id is truthy, no event changes it, and a send carries
    it in the payload. *)
Lemma handle_keeps_session (e : ChatScreen.Event) (w : World) :
  truthy (sessionId (chat w)) = true →
  sessionId (chat (world_of (ChatScreen.handle e w))) = sessionId (chat w)
  ∧ Forall (λ req, payload_session_id req = Some (sessionId (chat w)))
           (ChatScreen.sent e w).
Proof.
  intros Hsid.
  destruct w as [st a at_ [ms txt ld lang sid] rl ll al sp ck tk]; simpl in *.
  destruct e as [s | l | o]; simpl; [split; [reflexivity | constructor] .. |].
  unfold ChatScreen.sendMessage, try_finally, try_catch, bind, read. simpl.
  destruct (String.eqb (trim txt) ""); simpl; [split; [reflexivity | constructor] |].
  rewrite Hsid. simpl.
  destruct o as [[stt d] | resp]; simpl.
  - unfold get_prop.
    destruct d; simpl; try destruct (String.eqb lang "english"); simpl;
      (split; [reflexivity | repeat constructor]).
  - destruct (response_status_is resp 401); simpl;
      (split; [reflexivity | repeat constructor]).
Qed.

(** While the session id is falsy, a send leaves [session_id] out of the
    payload, and the id afterwards is the one captured from the answer. *)
Lemma send_captures_session (w : World) (o : HttpOutcome) :
  truthy (sessionId (chat w)) = false →
  Forall (λ req, payload_session_id req = None)
         (ChatScreen.sent (ChatScreen.Send o) w)
  ∧ sessionId (chat (world_of (ChatScreen.handle (ChatScreen.Send o) w)))
    = captured w o.
Proof.
  intros Hsid. unfold captured.
  destruct w as [st a at_ [ms txt ld lang sid] rl ll al sp ck tk]; simpl in *.
  unfold ChatScreen.sendMessage, try_finally, try_catch, bind, read. simpl.
  destruct (String.eqb (trim txt) ""); simpl; [split; [constructor | reflexivity] |].
  rewrite Hsid. simpl.
  destruct o as [[stt d] | resp]; simpl.
  - unfold get_prop, get_opt.
    destruct d; simpl; try destruct (String.eqb lang "english"); simpl;
      (split; [repeat constructor | reflexivity]).
  - destruct (response_status_is resp 401); simpl;
      (split; [repeat constructor | reflexivity]).
Qed.

Lemma play_keeps_session (es : list ChatScreen.Event) (w : World) :
  truthy (sessionId (chat w)) = true →
  sessionId (chat (fst (ChatScreen.play es w))) = sessionId (chat w)
  ∧ Forall (λ req, payload_session_id req = Some (sessionId (chat w)))
           (snd (ChatScreen.play es w)).
Proof.
  revert w. induction es as [| e es IH]; intros w Hsid; simpl.
  - split; [reflexivity | constructor].
  - destruct (handle_keeps_session e w Hsid) as [Hstep Hsent].
    specialize (IH (world_of (ChatScreen.handle e w))).
    rewrite Hstep in IH. specialize (IH Hsid).
    destruct (ChatScreen.play es (world_of (ChatScreen.handle e w)))
      as [w' rs]; simpl in *.
    destruct IH as [IHw IHrs]. split; [exact IHw |].
    apply Forall_app. split; assumption.
Qed.

(** A send made with a non-blank input: the request it issues, and what
    its answer does to the session id in whatever world it arrives. *)
Lemma sendMessage_settles_id (w : World) :
  trim (inputText (chat w)) ≠ "" →
  ∃ w1 k,
    ChatScreen.sendMessage w = Await w1 (chat_request w) k
    ∧ sessionId (chat w1) = sessionId (chat w)
    ∧ payload_session_id (chat_request w)
      = (if truthy (sessionId (chat w)) then Some (sessionId (chat w))
         else None)
    ∧ ∀ o w2, sessionId (chat (world_of (k o w2))) = settled_id w o w2.
Proof.
  intros Hne. apply String.eqb_neq in Hne.
  destruct w as [st a at_ [ms txt ld lang sid] rl ll al sp ck tk]; simpl in *.
  unfold ChatScreen.sendMessage, try_finally, try_catch, bind, read. simpl.
  rewrite Hne. simpl.
  unfold chat_request, settled_id, payload_session_id, ApiService.sendMessage,
    ApiService.api, get_opt. simpl.
  destruct (truthy sid) eqn:Hsid; simpl.
  all: do 2 eexists; split; [reflexivity |]; simpl.
  all: split; [reflexivity |]; split; [reflexivity |].
  all: intros o w2; destruct o as [[stt d] | resp]; simpl.
  all: try (unfold get_prop; destruct d; simpl;
            try destruct (String.eqb lang "english"); simpl).
  all: try (destruct (response_status_is resp 401); simpl).
  all: reflexivity.
Qed.

(** C4, amended.  The session id starts null.  A send with a blank input
    makes no call and changes nothing.  A send-message call carries the id
    as it is when the call is made, and leaves [session_id] out while that
    id is falsy.  When the answer arrives, in whatever state the screen is
    by then, the answer to a call made with a truthy id does not change the
    id; the answer to a call made with a falsy id sets the id to its
    [session_id] field when it is a success with a payload, and leaves the
    id alone when it is a failure.  When every call settles before the next
    event, it follows that once the id is truthy no sequence of events
    changes it and every send-message request carries it. *)
Theorem session_id_lifecycle (w : World) (es : list ChatScreen.Event) :
  sessionId ChatScreen.initial = JNull
  ∧ (trim (inputText (chat w)) = "" →
     ChatScreen.sendMessage w = Done w (Ok ()))
  ∧ (trim (inputText (chat w)) ≠ "" →
     ∃ w1 k,
       ChatScreen.sendMessage w = Await w1 (chat_request w) k
       ∧ sessionId (chat w1) = sessionId (chat w)
       ∧ payload_session_id (chat_request w)
         = (if truthy (sessionId (chat w)) then Some (sessionId (chat w))
            else None)
       ∧ ∀ o w2, sessionId (chat (world_of (k o w2))) = settled_id w o w2)
  ∧ (truthy (sessionId (chat w)) = true →
     sessionId (chat (fst (ChatScreen.play es w))) = sessionId (chat w)
     ∧ Forall (λ req, payload_session_id req = Some (sessionId (chat w)))
              (snd (ChatScreen.play es w))).
Proof.
  split; [reflexivity |]. split; [| split].
  - intros Hblank.
    unfold ChatScreen.sendMessage, bind, read. simpl.
    rewrite Hblank. reflexivity.
  - apply sendMessage_settles_id.
  - apply play_keeps_session.
Qed.

Lemma session_id_lifecycle_witness :
  ChatScreen.sendMessage (chat_typed "   ") = Done (chat_typed "   ") (Ok ())
  ∧ (∃ w1 k,
       ChatScreen.sendMessage (chat_typed "Where is the library?")
       = Await w1 (chat_request (chat_typed "Where is the library?")) k
       ∧ sessionId (chat w1)
         = sessionId (chat (chat_typed "Where is the library?"))
       ∧ payload_session_id (chat_request (chat_typed "Where is the library?"))
         = (if truthy (sessionId (chat (chat_typed "Where is the library?")))
            then Some (sessionId (chat (chat_typed "Where is the library?")))
            else None)
       ∧ ∀ o w2, sessionId (chat (world_of (k o w2)))
                 = settled_id (chat_typed "Where is the library?") o w2)
  ∧ (sessionId (chat (fst (ChatScreen.play two_turns (chat_in_session "s-1"))))
     = JStr "s-1"
     ∧ Forall (λ req, payload_session_id req = Some (JStr "s-1"))
              (snd (ChatScreen.play two_turns (chat_in_session "s-1")))).
Proof.
  split; [| split].
  - apply (proj1 (proj2 (session_id_lifecycle (chat_typed "   ") []))).
    reflexivity.
  - apply (proj1 (proj2 (proj2 (session_id_lifecycle
                                  (chat_typed "Where is the library?") [])))).
    discriminate.
  - apply (proj2 (proj2 (proj2 (session_id_lifecycle (chat_in_session "s-1")
                                  two_turns)))).
    reflexivity.
Defined.

(** C4 as worded fails when the first successful answer carries an empty
    [session_id]: the id is set to the empty string, the next request
    leaves [session_id] out, and the second successful answer replaces the
    id. *)
Lemma session_id_set_by_second_answer :
  sessionId (chat (fst (ChatScreen.play (take 2 two_turns_empty_id)
                          (chat_opened midnight))))
  = JStr ""
  ∧ Forall (λ req, payload_session_id req = None)
           (snd (ChatScreen.play two_turns_empty_id (chat_opened midnight)))
  ∧ length (snd (ChatScreen.play two_turns_empty_id (chat_opened midnight))) = 2
  ∧ sessionId (chat (fst (ChatScreen.play two_turns_empty_id
                            (chat_opened midnight))))
    = JStr "s-2".
Proof.
  split; [reflexivity |]. split; [| split; reflexivity].
  repeat constructor.
Qed.

(** The same happens when the first successful answer has no [session_id]
    at all: the id is then [undefined] until the second answer sets it. *)
Lemma session_id_missing_in_first_answer :
  sessionId (chat (fst (ChatScreen.play (take 2 two_turns)
                          (chat_opened midnight))))
  = JUndefined
  ∧ Forall (λ req, payload_session_id req = None)
           (snd (ChatScreen.play two_turns (chat_opened midnight)))
  ∧ sessionId (chat (fst (ChatScreen.play two_turns (chat_opened midnight))))
    = JStr "s-2".
Proof.
  split; [reflexivity |]. split; [| reflexivity].
  repeat constructor.
Qed.

(** With two sends in flight a truthy id is replaced: the second message is
    sent before the first answer arrives, so both calls are made with a
    null id, and each answer in its turn sets the id. *)
Lemma overlapping_sends_replace_session_id :
  payload_session_id (chat_request
                        (world_of (ChatScreen.setInputText "When does it open?"
                                     (world_of first_send))))
  = None
  ∧ sessionId (chat (world_of (resume first_send (answer_with_session "s-1")
                                 (world_of second_send))))
    = JStr "s-1"
  ∧ sessionId
      (chat (world_of
               (resume second_send (answer_with_session "s-2")
                  (world_of (resume first_send (answer_with_session "s-1")
                               (world_of second_send))))))
    = JStr "s-2".
Proof. repeat split; reflexivity. Qed.

(** The mount effect seeds the list with the welcome entry alone. *)
Lemma mount_seeds_welcome (w : World) :
  messages (chat (world_of (ChatScreen.mount w)))
  = [ChatScreen.welcomeMessage (clock w (ticks w))].
Proof. reflexivity. Qed.

(** Every event extends the list at the tail, by at most the user's message
    and one reply. *)
Lemma handle_appends (e : ChatScreen.Event) (w : World) :
  ∃ l, messages (chat (world_of (ChatScreen.handle e w)))
       = messages (chat w) ++ l
       ∧ length l ≤ 2.
Proof.
  destruct w as [st a at_ [ms txt ld lang sid] rl ll al sp ck tk].
  destruct e as [s | l | o]; simpl;
    [exists []; rewrite app_nil_r; split; [reflexivity | simpl; lia] .. |].
  unfold ChatScreen.sendMessage, try_finally, try_catch, bind, read. simpl.
  destruct (String.eqb (trim txt) ""); simpl;
    [exists []; rewrite app_nil_r; split; [reflexivity | simpl; lia] |].
  destruct o as [[stt d] | resp]; simpl.
  - unfold get_prop.
    destruct d; simpl; destruct (truthy sid); simpl;
      destruct (String.eqb lang "english"); simpl;
      rewrite <- app_assoc; eexists; (split; [reflexivity | simpl; lia]).
  - destruct (response_status_is resp 401); simpl;
      rewrite <- app_assoc; eexists; (split; [reflexivity | simpl; lia]).
Qed.

Lemma play_appends (es : list ChatScreen.Event) (w : World) :
  ∃ l, messages (chat (fst (ChatScreen.play es w))) = messages (chat w) ++ l.
Proof.
  revert w. induction es as [| e es IH]; intros w; simpl.
  - exists []. symmetry. apply app_nil_r.
  - destruct (handle_appends e w) as (l1 & Hl1 & _).
    destruct (IH (world_of (ChatScreen.handle e w))) as [l2 Hl2].
    destruct (ChatScreen.play es (world_of (ChatScreen.handle e w)))
      as [w' rs]; simpl in *.
    exists (l1 ++ l2). rewrite Hl2, Hl1. symmetry. apply app_assoc.
Qed.

(** C9, at the failing input.  When the second message is sent one
    millisecond after the first answer arrived, the answer and the second
    message have the same id: the answer's id is the reading plus one. *)
Theorem reply_and_next_message_share_id :
  id <$> messages (chat (fst (ChatScreen.play two_turns
                                (chat_opened tight_clock))))
  = ["welcome"; "1700000005000"; "1700000005401"; "1700000005401";
     "1700000009001"]
  ∧ ¬ NoDup (id <$> messages (chat (fst (ChatScreen.play two_turns
                                           (chat_opened tight_clock))))).
Proof.
  assert (id <$> messages (chat (fst (ChatScreen.play two_turns
                                        (chat_opened tight_clock))))
          = ["welcome"; "1700000005000"; "1700000005401"; "1700000005401";
     "1700000009001"]) as Hids
    by reflexivity.
  split; [exact Hids |].
  rewrite Hids. intros Hnd.
  apply NoDup_cons in Hnd as [_ Hnd].
  apply NoDup_cons in Hnd as [_ Hnd].
  apply NoDup_cons in Hnd as [Hin _].
  apply Hin. left.
Qed.

(* ===================================================================== *)
(** ** Further properties: session bootstrap and navigation *)
(* ===================================================================== *)

(** Unfolding the combinators of a computation. *)
Ltac unfold_proc :=
  do 3 (unfold try_finally, try_catch, bind, isWeb, read, get_prop,
          AuthContext.storeAuthData, AuthContext.parse,
          AuthContext.stringify;
        simpl).

(** Case analysis on the stored credential [key]. *)
Ltac case_stored key :=
  match goal with
  | |- context [?m !! key] => destruct (m !! key) eqn:?
  end.

(** X1. Bootstrap always settles: for every store and every outcome of the
    profile fetch it ends normally with [isLoading] off, so that the
    application never stays on the empty loading screen. *)
Theorem bootstrap_always_settles `{JSON} (w : World) (o : HttpOutcome) :
  ∃ w', run (AuthContext.loadStoredAuth w) [o] = Done w' (Ok ())
        ∧ isLoading (auth w') = false
        ∧ App.AppContent (auth w') ≠ App.Nothing.
Proof.
  destruct w as [[wb ls ss] a at_ c rl ll al sp ck tk].
  unfold AuthContext.loadStoredAuth; unfold_proc; simpl.
  assert (∀ w' : World, isLoading (auth w') = false →
            isLoading (auth w') = false
            ∧ App.AppContent (auth w') ≠ App.Nothing) as Hfin.
  { intros w' Hl. split; [exact Hl |]. unfold App.AppContent. rewrite Hl.
    destruct (truthy (user (auth w'))); discriminate. }
  destruct wb; simpl; unfold stored.
  all: case_stored "authToken"; simpl.
  all: try case_stored "userData"; simpl.
  all: repeat match goal with
              | |- context [String.eqb ?s ""] => destruct (String.eqb s "")
              end; simpl.
  all: try (eexists; split; [reflexivity | apply Hfin; reflexivity]).
  all: destruct o as [r | resp]; simpl.
  all: try destruct (Z.eqb (status r) 200); simpl.
  all: try destruct (response_status_is resp 401); simpl.
  all: unfold AuthContext.parse; simpl.
  all: try match goal with
           | |- context [JSON_parse ?s] => destruct (JSON_parse s)
           end; simpl.
  all: eexists; split; [reflexivity | apply Hfin; reflexivity].
Qed.

(** Bootstrap with both credentials stored, a 200 answer and a stored user
    record that parses. *)
Lemma loadStoredAuth_validated `{JSON} (w : World) (tok usr : string)
    (r : AxiosResponse) (u : JsVal) :
  credentials w !! "authToken" = Some tok → tok ≠ "" →
  credentials w !! "userData" = Some usr → usr ≠ "" →
  status r = 200%Z →
  JSON_parse usr = Some u →
  ∃ w', run (AuthContext.loadStoredAuth w) [Resolved r] = Done w' (Ok ())
        ∧ requests (AuthContext.loadStoredAuth w) [Resolved r]
          = [profile_request tok]
        ∧ token (auth w') = JStr tok
        ∧ user (auth w') = u
        ∧ isLoading (auth w') = false
        ∧ authToken w' = JStr tok
        ∧ store w' = store w.
Proof.
  intros Ht Htne Hu Hune Hr Hparse.
  unfold credentials in *.
  destruct w as [[wb ls ss] a at_ c rl ll al sp ck tk]; simpl in *.
  unfold AuthContext.loadStoredAuth; unfold_proc; simpl.
  apply String.eqb_neq in Htne, Hune.
  destruct wb; simpl; unfold stored; rewrite Ht, Hu; simpl;
    rewrite Htne, Hune; simpl; rewrite Hr; simpl;
    unfold AuthContext.parse; simpl; rewrite Hparse; simpl;
    unfold ApiService.request_interceptor, profile_request; simpl;
    rewrite Htne; simpl;
    eexists; (split; [reflexivity |]); simpl; repeat split; reflexivity.
Qed.

(** X2. When both credentials are stored, the profile fetch answers 200 and
    the stored user record parses, bootstrap sends the profile request with
    the stored token, restores token and user, hands the token to the API
    client, and leaves the store as it is. *)
Theorem bootstrap_restores_session `{JSON} (w : World) (tok usr : string)
    (r : AxiosResponse) (u : JsVal) :
  credentials w !! "authToken" = Some tok → tok ≠ "" →
  credentials w !! "userData" = Some usr → usr ≠ "" →
  status r = 200%Z →
  JSON_parse usr = Some u →
  ∃ w', run (AuthContext.loadStoredAuth w) [Resolved r] = Done w' (Ok ())
        ∧ requests (AuthContext.loadStoredAuth w) [Resolved r]
          = [profile_request tok]
        ∧ token (auth w') = JStr tok
        ∧ user (auth w') = u
        ∧ isLoading (auth w') = false
        ∧ authToken w' = JStr tok
        ∧ store w' = store w.
Proof.
  intros Ht Htne Hu Hune Hr Hparse.
  unfold credentials in *.
  destruct w as [[wb ls ss] a at_ c rl ll al sp ck tk]; simpl in *.
  unfold AuthContext.loadStoredAuth; unfold_proc; simpl.
  apply String.eqb_neq in Htne, Hune.
  destruct wb; simpl; unfold stored; rewrite Ht, Hu; simpl;
    rewrite Htne, Hune; simpl; rewrite Hr; simpl;
    unfold AuthContext.parse; simpl; rewrite Hparse; simpl;
    unfold ApiService.request_interceptor, profile_request; simpl;
    rewrite Htne; simpl;
    eexists; (split; [reflexivity |]); simpl; repeat split; reflexivity.
Qed.

Lemma bootstrap_restores_session_witness :
  ∃ w', run (AuthContext.loadStoredAuth (H := record_JSON)
               (boot (native_store "abc" "{}") midnight))
            [Resolved {| status := 200; data := JObj [] |}]
        = Done w' (Ok ())
        ∧ requests (AuthContext.loadStoredAuth (H := record_JSON)
                      (boot (native_store "abc" "{}") midnight))
                   [Resolved {| status := 200; data := JObj [] |}]
          = [profile_request "abc"]
        ∧ token (auth w') = JStr "abc"
        ∧ user (auth w') = JObj []
        ∧ isLoading (auth w') = false
        ∧ authToken w' = JStr "abc"
        ∧ store w' = native_store "abc" "{}".
Proof.
  apply (bootstrap_restores_session (H := record_JSON)
           (boot (native_store "abc" "{}") midnight) "abc" "{}"
           {| status := 200; data := JObj [] |} (JObj [])).
  - reflexivity.
  - discriminate.
  - reflexivity.
  - discriminate.
  - reflexivity.
  - reflexivity.
Defined.

(** X3. When a credential is missing from the store or empty, bootstrap
    makes no request and changes nothing but [isLoading]: the provider
    stays unauthenticated and a credential stored alone is not removed. *)
Theorem bootstrap_skips_incomplete_pair `{JSON} (w : World) :
  has_credential w "authToken" && has_credential w "userData" = false →
  AuthContext.loadStoredAuth w = Done (loaded w) (Ok ()).
Proof.
  unfold has_credential, credentials, loaded. intros Hpair.
  destruct w as [[wb ls ss] a at_ c rl ll al sp ck tk]; simpl in *.
  unfold AuthContext.loadStoredAuth, try_finally, try_catch, bind, isWeb, read.
  simpl.
  destruct wb; simpl; rewrite Hpair; reflexivity.
Qed.

Lemma bootstrap_skips_incomplete_pair_witness :
  AuthContext.loadStoredAuth (H := literal_JSON)
    (boot {| web := false; localStorage := ∅;
             secureStore := <["authToken" := "abc"]> ∅ |} midnight)
  = Done (loaded (boot {| web := false; localStorage := ∅;
                          secureStore := <["authToken" := "abc"]> ∅ |}
                       midnight))
         (Ok ()).
Proof.
  apply (bootstrap_skips_incomplete_pair (H := literal_JSON)
           (boot {| web := false; localStorage := ∅;
                    secureStore := <["authToken" := "abc"]> ∅ |} midnight)).
  reflexivity.
Defined.

(** A successful login or registration: what is stored and what is set. *)
Lemma session_established `{JSON} (w : World) (tok text : string) (u : JsVal)
    (call : Proc AxiosResponse) (fallback : string) (rq : Request) :
  call w = Await w rq ApiService.response_interceptor →
  JSON_stringify u = Some text →
  ∃ w',
    run (try_catch
           (response <- call ;;
            authToken <- get_prop (data response) "token" ;;
            userData <- get_prop (data response) "user" ;;
            AuthContext.storeAuthData authToken userData ;;
            AuthContext.setToken authToken ;;
            AuthContext.setUser userData ;;
            ApiService.setAuthToken authToken ;;
            ret succeeded)
           (λ error,
              ret {| AuthContext.success := false;
                     AuthContext.error :=
                       or_else (error_message error) (JStr fallback) |}) w)
        [Resolved (session_answer tok u)]
    = Done w' (Ok succeeded)
    ∧ credentials w' !! "authToken" = Some tok
    ∧ credentials w' !! "userData" = Some text
    ∧ token (auth w') = JStr tok
    ∧ user (auth w') = u
    ∧ isLoading (auth w') = isLoading (auth w)
    ∧ authToken w' = JStr tok.
Proof.
  intros Hcall Hs. unfold credentials.
  unfold try_catch, bind. rewrite Hcall. simpl.
  destruct w as [[wb ls ss] a at_ c rl ll al sp ck tk]; simpl in *.
  unfold_proc. rewrite Hs. simpl.
  destruct wb; simpl; eexists; (split; [reflexivity |]); simpl.
  all: split; [rewrite lookup_insert_ne by discriminate; apply lookup_insert_eq |].
  all: split; [apply lookup_insert_eq |].
  all: repeat split; reflexivity.
Qed.

(** X4. A login answered with a token and a user record that
    [JSON.stringify] can write persists the pair in the backend in use,
    sets token and user, hands the token to the API client and returns
    [{ success: true }]; once loading is over, the main navigator is shown
    exactly when the user record is truthy. *)
Theorem login_establishes_session `{JSON} (w : World)
    (email password tok text : string) (u : JsVal) :
  JSON_stringify u = Some text →
  ∃ w', run (AuthContext.login email password w)
            [Resolved (session_answer tok u)]
        = Done w' (Ok succeeded)
        ∧ credentials w' !! "authToken" = Some tok
        ∧ credentials w' !! "userData" = Some text
        ∧ token (auth w') = JStr tok
        ∧ user (auth w') = u
        ∧ authToken w' = JStr tok
        ∧ (isLoading (auth w) = false →
           App.AppContent (auth w') = if truthy u then App.Main else App.Auth).
Proof.
  intros Hs.
  destruct (session_established w tok text u
              (ApiService.login email password) "Login failed" _ eq_refl Hs)
    as (w' & Hrun & Ht & Hu & Htok & Huser & Hload & Hapi).
  exists w'. repeat split; try assumption.
  intros Hl. unfold App.AppContent. rewrite Hload, Hl, Huser. reflexivity.
Qed.

Lemma login_establishes_session_witness :
  ∃ w', run (AuthContext.login (H := record_JSON) "juan@evsu.edu.ph" "secret1"
               (boot (web_store "" "") midnight))
            [Resolved (session_answer "abc" (JObj []))]
        = Done w' (Ok succeeded)
        ∧ credentials w' !! "authToken" = Some "abc"
        ∧ credentials w' !! "userData" = Some "{}"
        ∧ token (auth w') = JStr "abc"
        ∧ user (auth w') = JObj []
        ∧ authToken w' = JStr "abc"
        ∧ (isLoading (auth (boot (web_store "" "") midnight)) = false →
           App.AppContent (auth w') = App.Main).
Proof.
  apply (login_establishes_session (H := record_JSON)
           (boot (web_store "" "") midnight)
           "juan@evsu.edu.ph" "secret1" "abc" "{}" (JObj [])).
  reflexivity.
Defined.

(** X5. Login, then the next start: when [JSON.parse] reads back what
    [JSON.stringify] wrote, a bootstrap over the store that a successful
    login leaves, with the token validated by a 200, restores the same
    token and user record and hands the token to the API client. *)
Theorem login_then_bootstrap `{JSON} (s : Store) (clk : nat → Z)
    (email password tok text : string) (u : JsVal) (r : AxiosResponse) :
  tok ≠ "" → text ≠ "" →
  JSON_stringify u = Some text →
  JSON_parse text = Some u →
  status r = 200%Z →
  ∃ w1 w2,
    run (AuthContext.login email password (boot s clk))
        [Resolved (session_answer tok u)]
    = Done w1 (Ok succeeded)
    ∧ run (AuthContext.loadStoredAuth (boot (store w1) clk)) [Resolved r]
      = Done w2 (Ok ())
    ∧ token (auth w2) = JStr tok
    ∧ user (auth w2) = u
    ∧ authToken w2 = JStr tok
    ∧ store w2 = store w1.
Proof.
  intros Htok Htext Hs Hp Hr.
  destruct (session_established (boot s clk) tok text u
              (ApiService.login email password) "Login failed" _ eq_refl Hs)
    as (w1 & Hlogin & Ht & Hu & _).
  assert (credentials (boot (store w1) clk) = credentials w1) as Hc
    by reflexivity.
  destruct (loadStoredAuth_validated (boot (store w1) clk) tok text r u)
    as (w2 & Hrun & _ & Htoken & Huser & _ & Hapi & Hstore);
    [rewrite Hc; exact Ht | exact Htok | rewrite Hc; exact Hu
     | exact Htext | exact Hr | exact Hp |].
  exists w1, w2. repeat split; assumption.
Qed.

Lemma login_then_bootstrap_witness :
  ∃ w1 w2,
    run (AuthContext.login (H := record_JSON) "juan@evsu.edu.ph" "secret1"
           (boot (native_store "" "") midnight))
        [Resolved (session_answer "abc" (JObj []))]
    = Done w1 (Ok succeeded)
    ∧ run (AuthContext.loadStoredAuth (H := record_JSON)
             (boot (store w1) midnight))
          [Resolved {| status := 200; data := JObj [] |}]
      = Done w2 (Ok ())
    ∧ token (auth w2) = JStr "abc"
    ∧ user (auth w2) = JObj []
    ∧ authToken w2 = JStr "abc"
    ∧ store w2 = store w1.
Proof.
  apply (login_then_bootstrap (H := record_JSON) (native_store "" "")
           midnight "juan@evsu.edu.ph" "secret1" "abc" "{}" (JObj [])
           {| status := 200; data := JObj [] |}).
  - discriminate.
  - discriminate.
  - reflexivity.
  - reflexivity.
  - reflexivity.
Defined.

(** A store from which both credentials have been deleted gives bootstrap
    nothing to validate. *)
Lemma bootstrap_on_cleared_store `{JSON} (w : World) :
  cleared w →
  AuthContext.loadStoredAuth w = Done (loaded w) (Ok ()).
Proof.
  intros [Ht _]. apply bootstrap_without_pair.
  unfold stored. rewrite Ht. reflexivity.
Qed.

(** X6. Logout, then the next start: whatever the outcome of the logout
    request, a bootstrap over the store that logout leaves makes no request
    and ends unauthenticated, with only [isLoading] changed. *)
Theorem next_start_after_logout `{JSON} (w : World) (o : HttpOutcome)
    (clk : nat → Z) :
  AuthContext.loadStoredAuth
    (boot (store (world_of (run (AuthContext.logout w) [o]))) clk)
  = Done (loaded (boot (store (world_of (run (AuthContext.logout w) [o])))
                       clk))
         (Ok ()).
Proof.
  apply bootstrap_on_cleared_store.
  unfold cleared, credentials.
  destruct w as [[wb ls ss] a at_ c rl ll al sp ck tk].
  unfold AuthContext.logout, try_finally, try_catch, bind, isWeb, read. simpl.
  destruct o as [r | resp]; simpl;
    [| destruct (response_status_is resp 401); simpl];
    destruct wb; simpl; apply cleared_after_delete.
Qed.

(** X7. A failed validation, then the next start: after a bootstrap that
    found both credentials and whose profile fetch failed, the following
    bootstrap over the store it leaves makes no request: the server is
    asked about a stored token at most once. *)
Theorem next_start_after_failed_validation `{JSON} (w : World)
    (tok usr : string) (o : HttpOutcome) (clk : nat → Z) :
  credentials w !! "authToken" = Some tok → tok ≠ "" →
  credentials w !! "userData" = Some usr → usr ≠ "" →
  profile_fetch_fails o →
  ∃ w', run (AuthContext.loadStoredAuth w) [o] = Done w' (Ok ())
        ∧ AuthContext.loadStoredAuth (boot (store w') clk)
          = Done (loaded (boot (store w') clk)) (Ok ()).
Proof.
  intros Ht Htne Hu Hune Ho.
  destruct (loadStoredAuth_fetch_fails w tok usr o Ht Htne Hu Hune Ho)
    as (w' & Hrun & _ & Hcl & _).
  exists w'. split; [exact Hrun |].
  apply bootstrap_on_cleared_store. exact Hcl.
Qed.

Lemma next_start_after_failed_validation_witness :
  ∃ w', run (AuthContext.loadStoredAuth (H := literal_JSON)
               (boot (web_store "abc" "null") midnight)) [Rejected None]
        = Done w' (Ok ())
        ∧ AuthContext.loadStoredAuth (H := literal_JSON)
            (boot (store w') midnight)
          = Done (loaded (boot (store w') midnight)) (Ok ()).
Proof.
  apply (next_start_after_failed_validation (H := literal_JSON)
           (boot (web_store "abc" "null") midnight) "abc" "null"
           (Rejected None) midnight).
  - reflexivity.
  - discriminate.
  - reflexivity.
  - discriminate.
  - exact I.
Defined.

(* ===================================================================== *)
(** ** Further properties: auth operations on unusual answers *)
(* ===================================================================== *)

(** X8. On the native backend, a login answered with a token and no user
    record is reported as failed with the fallback message and leaves the
    provider state and the API client as they were, yet the token has
    already been written: the store then holds a token without a user
    record. *)
Theorem login_without_user_leaves_token `{JSON} (w : World)
    (email password tok : string) (fs : list (string * JsVal)) :
  web (store w) = false →
  field "token" fs = JStr tok →
  field "user" fs = JUndefined →
  JSON_stringify JUndefined = None →
  ∃ w', run (AuthContext.login email password w)
            [Resolved {| status := 200; data := JObj fs |}]
        = Done w' (Ok (failure None "Login failed"))
        ∧ credentials w' !! "authToken" = Some tok
        ∧ credentials w' !! "userData" = credentials w !! "userData"
        ∧ auth w' = auth w
        ∧ authToken w' = authToken w.
Proof.
  intros Hweb Ht Hu Hs. unfold credentials.
  destruct w as [[wb ls ss] a at_ c rl ll al sp ck tk]; simpl in *.
  subst wb.
  unfold AuthContext.login. unfold_proc. rewrite Ht, Hu. simpl.
  unfold_proc. rewrite Hs. simpl.
  eexists; split; [reflexivity |]. simpl.
  split; [apply lookup_insert_eq |].
  split; [apply lookup_insert_ne; discriminate |].
  split; reflexivity.
Qed.

Lemma login_without_user_leaves_token_witness :
  ∃ w', run (AuthContext.login (H := literal_JSON) "juan@evsu.edu.ph" "secret1"
               (boot {| web := false; localStorage := ∅; secureStore := ∅ |}
                     midnight))
            [Resolved {| status := 200; data := JObj [("token", JStr "abc")] |}]
        = Done w' (Ok (failure None "Login failed"))
        ∧ credentials w' !! "authToken" = Some "abc"
        ∧ credentials w' !! "userData" = None
        ∧ auth w' = AuthContext.initial
        ∧ authToken w' = JUndefined.
Proof.
  destruct (login_without_user_leaves_token (H := literal_JSON)
              (boot {| web := false; localStorage := ∅; secureStore := ∅ |}
                    midnight)
              "juan@evsu.edu.ph" "secret1" "abc" [("token", JStr "abc")]
              eq_refl eq_refl eq_refl eq_refl)
    as (w' & Hrun & Ht & Hu & Ha & Hc).
  exists w'. repeat split; assumption.
Defined.

(** X9. A request that succeeds with no payload ([null] or [undefined]
    data) is reported by login, register and update-profile as a failure
    with the operation's fallback message, and nothing at all is changed. *)
Theorem empty_payload_is_reported_as_failure `{JSON} (w : World)
    (r : AxiosResponse) (email password : string)
    (userData profileData : JsVal) :
  nullish (data r) = true →
  run (AuthContext.login email password w) [Resolved r]
  = Done w (Ok (failure None "Login failed"))
  ∧ run (AuthContext.register userData w) [Resolved r]
    = Done w (Ok (failure None "Registration failed"))
  ∧ run (AuthContext.updateProfile profileData w) [Resolved r]
    = Done w (Ok (failure None "Profile update failed")).
Proof.
  intros Hnull.
  unfold AuthContext.login, AuthContext.register, AuthContext.updateProfile.
  destruct r as [st d]; simpl in *.
  destruct d; try discriminate; repeat split; reflexivity.
Qed.

Lemma empty_payload_is_reported_as_failure_witness :
  run (AuthContext.login (H := literal_JSON) "juan@evsu.edu.ph" "secret1"
         (boot (web_store "" "") midnight))
      [Resolved {| status := 204; data := JNull |}]
  = Done (boot (web_store "" "") midnight) (Ok (failure None "Login failed"))
  ∧ run (AuthContext.register (H := literal_JSON) JNull
           (boot (web_store "" "") midnight))
        [Resolved {| status := 204; data := JNull |}]
    = Done (boot (web_store "" "") midnight)
           (Ok (failure None "Registration failed"))
  ∧ run (AuthContext.updateProfile (H := literal_JSON) JNull
           (boot (web_store "" "") midnight))
        [Resolved {| status := 204; data := JNull |}]
    = Done (boot (web_store "" "") midnight)
           (Ok (failure None "Profile update failed")).
Proof.
  apply (empty_payload_is_reported_as_failure (H := literal_JSON)
           (boot (web_store "" "") midnight)
           {| status := 204; data := JNull |}
           "juan@evsu.edu.ph" "secret1" JNull JNull).
  reflexivity.
Defined.

(** X10. An update-profile answered with a user record that
    [JSON.stringify] can write replaces the stored and the in-memory user
    record and touches nothing else: the stored token, the token in the
    provider and the token of the API client stay as they were. *)
Theorem updateProfile_replaces_user `{JSON} (w : World) (profileData u : JsVal)
    (text : string) (st : Z) (fs : list (string * JsVal)) :
  field "user" fs = u →
  JSON_stringify u = Some text →
  ∃ w', run (AuthContext.updateProfile profileData w)
            [Resolved {| status := st; data := JObj fs |}]
        = Done w' (Ok succeeded)
        ∧ credentials w' !! "userData" = Some text
        ∧ credentials w' !! "authToken" = credentials w !! "authToken"
        ∧ user (auth w') = u
        ∧ token (auth w') = token (auth w)
        ∧ authToken w' = authToken w.
Proof.
  intros Hu Hs. unfold credentials.
  destruct w as [[wb ls ss] a at_ c rl ll al sp ck tk]; simpl in *.
  unfold AuthContext.updateProfile. unfold_proc. rewrite Hu. simpl.
  unfold_proc. rewrite Hs. simpl.
  destruct wb; simpl; eexists; (split; [reflexivity |]); simpl.
  all: split; [apply lookup_insert_eq |].
  all: split; [apply lookup_insert_ne; discriminate |].
  all: repeat split; reflexivity.
Qed.

Lemma updateProfile_replaces_user_witness :
  ∃ w', run (AuthContext.updateProfile (H := record_JSON) (JObj [])
               (boot (web_store "abc" "null") midnight))
            [Resolved {| status := 200; data := JObj [("user", JObj [])] |}]
        = Done w' (Ok succeeded)
        ∧ credentials w' !! "userData" = Some "{}"
        ∧ credentials w' !! "authToken" = Some "abc"
        ∧ user (auth w') = JObj []
        ∧ token (auth w') = JNull
        ∧ authToken w' = JUndefined.
Proof.
  apply (updateProfile_replaces_user (H := record_JSON)
           (boot (web_store "abc" "null") midnight) (JObj []) (JObj [])
           "{}" 200 [("user", JObj [])]).
  - reflexivity.
  - reflexivity.
Defined.

(** X11. On the web backend, an update-profile whose answer has no [user]
    field still returns [{ success: true }]: the text [undefined] is stored
    as the user record, the user in the provider becomes [undefined], and
    with loading over the application falls back to the auth screens. *)
Theorem updateProfile_without_user_signs_out `{JSON} (w : World)
    (profileData : JsVal) (st : Z) (fs : list (string * JsVal)) :
  web (store w) = true →
  field "user" fs = JUndefined →
  JSON_stringify JUndefined = None →
  isLoading (auth w) = false →
  ∃ w', run (AuthContext.updateProfile profileData w)
            [Resolved {| status := st; data := JObj fs |}]
        = Done w' (Ok succeeded)
        ∧ credentials w' !! "userData" = Some "undefined"
        ∧ user (auth w') = JUndefined
        ∧ token (auth w') = token (auth w)
        ∧ App.AppContent (auth w') = App.Auth.
Proof.
  intros Hweb Hu Hs Hl. unfold credentials.
  destruct w as [[wb ls ss] [usr tk_ ld] at_ c rl ll al sp ck tk]; simpl in *.
  subst wb ld.
  unfold AuthContext.updateProfile. unfold_proc. rewrite Hu. simpl.
  unfold_proc. rewrite Hs. simpl.
  eexists; split; [reflexivity |]. simpl.
  split; [apply lookup_insert_eq |]. repeat split; reflexivity.
Qed.

Lemma updateProfile_without_user_signs_out_witness :
  ∃ w', run (AuthContext.updateProfile (H := literal_JSON) (JObj [])
               (loaded (boot (web_store "abc" "null") midnight)))
            [Resolved {| status := 200; data := JObj [] |}]
        = Done w' (Ok succeeded)
        ∧ credentials w' !! "userData" = Some "undefined"
        ∧ user (auth w') = JUndefined
        ∧ token (auth w') = JNull
        ∧ App.AppContent (auth w') = App.Auth.
Proof.
  apply (updateProfile_without_user_signs_out (H := literal_JSON)
           (loaded (boot (web_store "abc" "null") midnight)) (JObj []) 200 []).
  - reflexivity.
  - reflexivity.
  - reflexivity.
  - reflexivity.
Defined.

(* ===================================================================== *)
(** ** Further properties: the API client *)
(* ===================================================================== *)

(** X12. With a non-empty token set on the API client, a call carries the
    header [Token <token>]; however the call ends, the provider state and
    the store are untouched; and the next call carries the same header,
    unless the first was rejected with a 401, after which it carries no
    Authorization header. *)
Theorem client_token_after_call (w : World) (t : string)
    (m m' : Method) (u u' : string) (b b' : JsVal) (o : HttpOutcome) :
  authToken w = JStr t → t ≠ "" →
  requests (ApiService.api m u b w) [o]
  = [request_with m u b (Some ("Token " +:+ t))]
  ∧ auth (world_of (run (ApiService.api m u b w) [o])) = auth w
  ∧ store (world_of (run (ApiService.api m u b w) [o])) = store w
  ∧ requests (ApiService.api m' u' b'
                (world_of (run (ApiService.api m u b w) [o]))) []
    = [request_with m' u' b'
         (if rejected_401 o then None else Some ("Token " +:+ t))].
Proof.
  intros Ht Hne. apply String.eqb_neq in Hne.
  destruct w as [st a at_ c rl ll al sp ck tk]; simpl in *. subst at_.
  unfold request_with, ApiService.request_interceptor; simpl.
  destruct o as [r | resp]; simpl; unfold bind; simpl;
    [| destruct (response_status_is resp 401); simpl];
    rewrite ?Hne; simpl; repeat split; reflexivity.
Qed.

Lemma client_token_after_call_witness :
  requests (ApiService.getChatSessions
              (world_of (ApiService.setAuthToken (JStr "abc")
                           (boot (web_store "abc" "null") midnight))))
           [Rejected (Some {| status := 401; data := JUndefined |})]
  = [request_with GET "/chat/sessions/" JUndefined (Some "Token abc")]
  ∧ auth (world_of
            (run (ApiService.getChatSessions
                    (world_of (ApiService.setAuthToken (JStr "abc")
                                 (boot (web_store "abc" "null") midnight))))
                 [Rejected (Some {| status := 401; data := JUndefined |})]))
    = AuthContext.initial
  ∧ store (world_of
             (run (ApiService.getChatSessions
                     (world_of (ApiService.setAuthToken (JStr "abc")
                                  (boot (web_store "abc" "null") midnight))))
                  [Rejected (Some {| status := 401; data := JUndefined |})]))
    = web_store "abc" "null"
  ∧ requests (ApiService.endChatSession (JStr "s-1")
                (world_of
                   (run (ApiService.getChatSessions
                           (world_of (ApiService.setAuthToken (JStr "abc")
                                        (boot (web_store "abc" "null")
                                              midnight))))
                        [Rejected (Some {| status := 401;
                                           data := JUndefined |})]))) []
    = [request_with POST "/chat/sessions/end/"
         (JObj [("session_id", JStr "s-1")]) None].
Proof.
  apply (client_token_after_call
           (world_of (ApiService.setAuthToken (JStr "abc")
                        (boot (web_store "abc" "null") midnight)))
           "abc" GET POST "/chat/sessions/" "/chat/sessions/end/"
           JUndefined (JObj [("session_id", JStr "s-1")])
           (Rejected (Some {| status := 401; data := JUndefined |}))).
  - reflexivity.
  - discriminate.
Defined.

(** The base URL of the web-compatible client: in a browser the
    configured [apiUrl] is ignored and the URL is the localhost one; outside
    a browser it is what the mobile-only client uses, the configured value
    when that is truthy and the localhost URL otherwise; it is never
    falsy. *)
Theorem getApiUrl_cases (expoConfig : JsVal) (window : bool) :
  ApiService.getApiUrl true expoConfig = JStr "http://localhost:8000/api"
  ∧ ApiService.getApiUrl false expoConfig
    = MobileApiService.API_BASE_URL expoConfig
  ∧ (truthy (get_opt (get_opt expoConfig "extra") "apiUrl") = false →
     ApiService.getApiUrl false expoConfig = JStr "http://localhost:8000/api")
  ∧ truthy (ApiService.getApiUrl window expoConfig) = true.
Proof.
  unfold ApiService.getApiUrl, MobileApiService.API_BASE_URL, or_else.
  split; [reflexivity |]. split; [reflexivity |]. split.
  - intros Hf. rewrite Hf. reflexivity.
  - destruct window; [reflexivity |].
    destruct (truthy (get_opt (get_opt expoConfig "extra") "apiUrl")) eqn:Hc;
      [exact Hc | reflexivity].
Qed.

Lemma getApiUrl_cases_witness :
  ApiService.getApiUrl false (JObj [("extra", JObj [("apiUrl", JStr "")])])
  = JStr "http://localhost:8000/api".
Proof.
  apply (proj1 (proj2 (proj2 (getApiUrl_cases
                                (JObj [("extra", JObj [("apiUrl", JStr "")])])
                                false)))).
  reflexivity.
Defined.

(** X13. The two API clients build the same send-message request once the
    session id is truthy; for a falsy id the mobile-only client still sends
    [session_id] ([null] in place of [undefined]) where the web-compatible
    client leaves it out. *)
Theorem sendMessage_payloads (message language : string) (sessionId : JsVal)
    (w : World) :
  (truthy sessionId = true →
   MobileApiService.sendMessage message language sessionId w
   = ApiService.sendMessage message language sessionId w)
  ∧ (truthy sessionId = false →
     Forall (λ req, payload_session_id req = None)
            (requests (ApiService.sendMessage message language sessionId w) [])
     ∧ Forall (λ req, payload_session_id req
                      = Some (match sessionId with
                              | JUndefined => JNull
                              | v => v
                              end))
              (requests (MobileApiService.sendMessage message language
                           sessionId w) [])).
Proof.
  unfold MobileApiService.sendMessage, ApiService.sendMessage,
    MobileApiService.api, ApiService.api.
  split; intros Hs; rewrite Hs; simpl.
  - destruct sessionId; try discriminate; reflexivity.
  - split; repeat constructor.
Qed.

Lemma sendMessage_payloads_witness :
  MobileApiService.sendMessage "Where is the library?" "english" (JStr "s-1")
    (boot (native_store "" "") midnight)
  = ApiService.sendMessage "Where is the library?" "english" (JStr "s-1")
      (boot (native_store "" "") midnight).
Proof.
  apply (proj1 (sendMessage_payloads "Where is the library?" "english"
                  (JStr "s-1") (boot (native_store "" "") midnight))).
  reflexivity.
Defined.

(* ===================================================================== *)
(** ** Further properties: the registration and login screens *)
(* ===================================================================== *)

(** [validateForm] lets a form through exactly when it is [acceptable];
    otherwise it shows one alert. *)
Lemma validateForm_decides (f : RegisterScreen.FormData) (w : World) :
  if acceptable f
  then RegisterScreen.validateForm f w = Done w (Ok true)
  else ∃ msg, RegisterScreen.validateForm f w
              = Done (with_alert "Error" msg w) (Ok false).
Proof.
  unfold acceptable, RegisterScreen.validateForm.
  rewrite Nat.ltb_antisym.
  set (long := (6 <=? code_units (RegisterScreen.password f))%nat).
  destruct (RegisterScreen.empty (RegisterScreen.student_id f)); simpl;
    [eexists; reflexivity |].
  destruct (RegisterScreen.empty (RegisterScreen.email f)); simpl;
    [eexists; reflexivity |].
  destruct (RegisterScreen.empty (RegisterScreen.password f)); simpl;
    [eexists; reflexivity |].
  destruct (RegisterScreen.empty (RegisterScreen.password_confirm f)); simpl;
    [eexists; reflexivity |].
  destruct (RegisterScreen.empty (RegisterScreen.first_name f)); simpl;
    [eexists; reflexivity |].
  destruct (RegisterScreen.empty (RegisterScreen.last_name f)); simpl;
    [eexists; reflexivity |].
  destruct (String.eqb (RegisterScreen.password f)
              (RegisterScreen.password_confirm f)); simpl;
    [| eexists; reflexivity].
  destruct long; simpl; [| eexists; reflexivity].
  destruct (includes (toLowerCase (RegisterScreen.email f)) "@evsu.edu.ph");
    simpl; [reflexivity |].
  destruct (includes (toLowerCase (RegisterScreen.email f))
              "@student.evsu.edu.ph"); simpl;
    [reflexivity | eexists; reflexivity].
Qed.

(** X14. Submitting the registration form reaches the network exactly when
    the six required fields are filled in, the password equals its
    confirmation and has at least six characters (UTF-16 code units, as
    [password.length] counts them), and the address contains
    one of the two institutional domains: then the loading flag is raised
    and the register request is sent with the form as typed; otherwise one
    alert is shown and nothing else happens.  Course and year level are
    never checked. *)
Theorem registration_reaches_network_iff `{JSON} (f : RegisterScreen.FormData)
    (w : World) :
  if acceptable f
  then ∃ k, RegisterScreen.handleRegister f w
            = Await (with_registerLoading true w) (register_request w f) k
  else ∃ msg, RegisterScreen.handleRegister f w
              = Done (with_alert "Error" msg w) (Ok ()).
Proof.
  pose proof (validateForm_decides f w) as Hv.
  unfold RegisterScreen.handleRegister, bind.
  destruct (acceptable f).
  - rewrite Hv. simpl. eexists. reflexivity.
  - destruct Hv as [msg Hv]. rewrite Hv. simpl. exists msg. reflexivity.
Qed.

(** The length check counts code units, not bytes: a five-character
    password of seven bytes is turned down. *)
Lemma short_password_in_code_units (w : World) :
  String.length peso_password = 7%nat
  ∧ acceptable peso_form = false
  ∧ RegisterScreen.validateForm peso_form w
    = Done (with_alert "Error" (JStr "Password must be at least 6 characters") w)
           (Ok false).
Proof. repeat split; reflexivity. Qed.

(** X15. Once the register request of an acceptable form settles, the
    loading flag is lowered and exactly one alert reports the outcome: on a
    rejection, [Registration Failed] with the server's message or the
    fallback, and the provider state and the store are as before; on an
    answer with a token and a user record, [Success], with the session
    established. *)
Theorem registration_reports_outcome `{JSON} (f : RegisterScreen.FormData)
    (w : World) :
  acceptable f = true →
  (∀ resp, ∃ w',
      run (RegisterScreen.handleRegister f w) [Rejected resp]
      = Done w' (Ok ())
      ∧ registerLoading w' = false
      ∧ alerts w' = alerts w ++ [("Registration Failed",
                                  message_or_fallback resp "Registration failed")]
      ∧ auth w' = auth w
      ∧ store w' = store w)
  ∧ (∀ tok text u, JSON_stringify u = Some text → ∃ w',
        run (RegisterScreen.handleRegister f w)
            [Resolved (session_answer tok u)]
        = Done w' (Ok ())
        ∧ registerLoading w' = false
        ∧ alerts w' = alerts w
                      ++ [("Success",
                           JStr "Registration successful! Welcome to Konsultabot.")]
        ∧ token (auth w') = JStr tok
        ∧ user (auth w') = u
        ∧ credentials w' !! "authToken" = Some tok
        ∧ credentials w' !! "userData" = Some text).
Proof.
  intros Hacc.
  pose proof (validateForm_decides f w) as Hv. rewrite Hacc in Hv.
  unfold RegisterScreen.handleRegister, bind. rewrite Hv. simpl.
  unfold AuthContext.register. split.
  - intros resp. unfold_proc.
    unfold message_or_fallback, error_message, or_else; simpl.
    destruct (response_status_is resp 401); simpl;
      match goal with
      | |- context [truthy ?m] => destruct (truthy m)
      end; simpl; eexists; (split; [reflexivity |]); simpl;
      repeat split; reflexivity.
  - intros tok text u Hs. unfold credentials.
    destruct w as [[wb ls ss] a at_ c rl ll al sp ck tk]; simpl in *.
    unfold_proc. rewrite Hs. simpl.
    destruct wb; simpl; eexists; (split; [reflexivity |]); simpl.
    all: do 4 (split; [reflexivity |]).
    all: split; [rewrite lookup_insert_ne by discriminate;
                 apply lookup_insert_eq | apply lookup_insert_eq].
Qed.

Lemma registration_reports_outcome_witness :
  (∀ resp, ∃ w',
      run (RegisterScreen.handleRegister (H := record_JSON) valid_form
             (boot (native_store "" "") midnight)) [Rejected resp]
      = Done w' (Ok ())
      ∧ registerLoading w' = false
      ∧ alerts w' = alerts (boot (native_store "" "") midnight)
                    ++ [("Registration Failed",
                         message_or_fallback resp "Registration failed")]
      ∧ auth w' = auth (boot (native_store "" "") midnight)
      ∧ store w' = store (boot (native_store "" "") midnight))
  ∧ (∀ tok text u, JSON_stringify (JSON := record_JSON) u = Some text → ∃ w',
        run (RegisterScreen.handleRegister (H := record_JSON) valid_form
               (boot (native_store "" "") midnight))
            [Resolved (session_answer tok u)]
        = Done w' (Ok ())
        ∧ registerLoading w' = false
        ∧ alerts w' = alerts (boot (native_store "" "") midnight)
                      ++ [("Success",
                           JStr "Registration successful! Welcome to Konsultabot.")]
        ∧ token (auth w') = JStr tok
        ∧ user (auth w') = u
        ∧ credentials w' !! "authToken" = Some tok
        ∧ credentials w' !! "userData" = Some text).
Proof.
  apply (registration_reports_outcome (H := record_JSON) valid_form
           (boot (native_store "" "") midnight)).
  reflexivity.
Defined.

Lemma empty_toLowerCase (s : string) :
  RegisterScreen.empty (toLowerCase s) = RegisterScreen.empty s.
Proof. destruct s; reflexivity. Qed.

(** X16. Validation does not look at the letter case of the address: two
    forms that differ only in the address, with addresses equal up to
    case, get the same verdict and the same alert. *)
Theorem validation_ignores_letter_case (f : RegisterScreen.FormData)
    (e : string) (w : World) :
  toLowerCase e = toLowerCase (RegisterScreen.email f) →
  RegisterScreen.validateForm (with_email e f) w
  = RegisterScreen.validateForm f w.
Proof.
  intros He.
  assert (RegisterScreen.empty e = RegisterScreen.empty (RegisterScreen.email f))
    as Hempty.
  { rewrite <- (empty_toLowerCase e), He. apply empty_toLowerCase. }
  unfold RegisterScreen.validateForm. simpl. rewrite He, Hempty. reflexivity.
Qed.

Lemma validation_ignores_letter_case_witness :
  RegisterScreen.validateForm (with_email "Juan@EVSU.edu.ph" valid_form)
    (boot (native_store "" "") midnight)
  = RegisterScreen.validateForm valid_form (boot (native_store "" "") midnight).
Proof.
  apply (validation_ignores_letter_case valid_form "Juan@EVSU.edu.ph"
           (boot (native_store "" "") midnight)).
  reflexivity.
Defined.

(** X17. A login attempt with an empty email or an empty password makes no
    request: the alert [Please fill in all fields] is shown and nothing
    else changes, the loading flag included. *)
Theorem login_requires_both_fields `{JSON} (email password : string)
    (w : World) :
  email = "" ∨ password = "" →
  LoginScreen.handleLogin email password w
  = Done (with_alert "Error" (JStr "Please fill in all fields") w) (Ok ()).
Proof.
  intros [He | Hp]; subst; unfold LoginScreen.handleLogin; simpl.
  - reflexivity.
  - rewrite orb_true_r. reflexivity.
Qed.

Lemma login_requires_both_fields_witness :
  LoginScreen.handleLogin (H := literal_JSON) "juan@evsu.edu.ph" ""
    (boot (native_store "" "") midnight)
  = Done (with_alert "Error" (JStr "Please fill in all fields")
            (boot (native_store "" "") midnight)) (Ok ()).
Proof.
  apply (login_requires_both_fields (H := literal_JSON) "juan@evsu.edu.ph" ""
           (boot (native_store "" "") midnight)).
  right. reflexivity.
Defined.

(** X18. Once the login request settles, the loading flag of the login
    screen is lowered.  A rejection shows the alert [Login Failed] with the
    server's message or the fallback and leaves the provider state and the
    store as before; an answer with a token and a user record shows no
    alert and establishes the session. *)
Theorem login_reports_outcome `{JSON} (email password : string) (w : World) :
  email ≠ "" → password ≠ "" →
  (∀ resp, ∃ w',
      run (LoginScreen.handleLogin email password w) [Rejected resp]
      = Done w' (Ok ())
      ∧ loginLoading w' = false
      ∧ alerts w' = alerts w ++ [("Login Failed",
                                  message_or_fallback resp "Login failed")]
      ∧ auth w' = auth w
      ∧ store w' = store w)
  ∧ (∀ tok text u, JSON_stringify u = Some text → ∃ w',
        run (LoginScreen.handleLogin email password w)
            [Resolved (session_answer tok u)]
        = Done w' (Ok ())
        ∧ loginLoading w' = false
        ∧ alerts w' = alerts w
        ∧ token (auth w') = JStr tok
        ∧ user (auth w') = u
        ∧ authToken w' = JStr tok).
Proof.
  intros He Hp. apply String.eqb_neq in He, Hp.
  unfold LoginScreen.handleLogin, RegisterScreen.empty. rewrite He, Hp. simpl.
  unfold AuthContext.login. split.
  - intros resp. unfold_proc.
    unfold message_or_fallback, error_message, or_else; simpl.
    destruct (response_status_is resp 401); simpl;
      match goal with
      | |- context [truthy ?m] => destruct (truthy m)
      end; simpl; eexists; (split; [reflexivity |]); simpl;
      repeat split; reflexivity.
  - intros tok text u Hs.
    destruct w as [[wb ls ss] a at_ c rl ll al sp ck tk]; simpl in *.
    unfold_proc. rewrite Hs. simpl.
    destruct wb; simpl; eexists; (split; [reflexivity |]); simpl;
      repeat split; reflexivity.
Qed.

Lemma login_reports_outcome_witness :
  (∀ resp, ∃ w',
      run (LoginScreen.handleLogin (H := record_JSON) "juan@evsu.edu.ph"
             "secret1" (boot (native_store "" "") midnight)) [Rejected resp]
      = Done w' (Ok ())
      ∧ loginLoading w' = false
      ∧ alerts w' = alerts (boot (native_store "" "") midnight)
                    ++ [("Login Failed",
                         message_or_fallback resp "Login failed")]
      ∧ auth w' = auth (boot (native_store "" "") midnight)
      ∧ store w' = store (boot (native_store "" "") midnight))
  ∧ (∀ tok text u, JSON_stringify (JSON := record_JSON) u = Some text → ∃ w',
        run (LoginScreen.handleLogin (H := record_JSON) "juan@evsu.edu.ph"
               "secret1" (boot (native_store "" "") midnight))
            [Resolved (session_answer tok u)]
        = Done w' (Ok ())
        ∧ loginLoading w' = false
        ∧ alerts w' = alerts (boot (native_store "" "") midnight)
        ∧ token (auth w') = JStr tok
        ∧ user (auth w') = u
        ∧ authToken w' = JStr tok).
Proof.
  apply (login_reports_outcome (H := record_JSON) "juan@evsu.edu.ph" "secret1"
           (boot (native_store "" "") midnight)).
  - discriminate.
  - discriminate.
Defined.

(* ===================================================================== *)
(** ** Further properties: the chat screen *)
(* ===================================================================== *)

(** Case analysis on how a send-message request settles and on what the
    continuation of [sendMessage] then tests. *)
Ltac chat_cases o lang sid :=
  destruct o as [[? d] | resp]; simpl;
  [ unfold get_prop; destruct d; simpl;
    try destruct (truthy sid); simpl;
    try destruct (String.eqb lang "english"); simpl
  | destruct (response_status_is resp 401); simpl ].

(** X19. With an input that is empty or only white space, [sendMessage]
    does nothing at all: no request, no message, the input text is not
    even cleared. *)
Theorem blank_input_is_ignored (w : World) :
  trim (inputText (chat w)) = "" →
  ChatScreen.sendMessage w = Done w (Ok ()).
Proof.
  intros Hblank.
  unfold ChatScreen.sendMessage, bind, read. simpl.
  rewrite Hblank. reflexivity.
Qed.

Lemma blank_input_is_ignored_witness :
  ChatScreen.sendMessage (chat_typed "   ") = Done (chat_typed "   ") (Ok ()).
Proof.
  apply (blank_input_is_ignored (chat_typed "   ")).
  reflexivity.
Defined.

(** White space outside ASCII is white space too: an input of no-break
    and ideographic spaces is ignored. *)
Lemma no_break_space_input_is_ignored :
  ChatScreen.sendMessage (chat_typed (nbsp +:+ ideographic_space))
  = Done (chat_typed (nbsp +:+ ideographic_space)) (Ok ()).
Proof. reflexivity. Qed.

(** X20. A send with a non-blank input issues the request with the trimmed
    text, the language and the session id of that moment and the client's
    Authorization header; in the world in which the request is issued the
    input is empty and the busy flag is up.  When the answer arrives,
    however the request ends and whatever the state of the screen is by
    then (another request may still be pending), the busy flag is lowered
    and the input text and the language of that moment are kept. *)
Theorem send_holds_busy_flag (w : World) :
  trim (inputText (chat w)) ≠ "" →
  ∃ w1 k,
    ChatScreen.sendMessage w = Await w1 (chat_request w) k
    ∧ loading (chat w1) = true
    ∧ inputText (chat w1) = ""
    ∧ ∀ o w2,
        loading (chat (world_of (k o w2))) = false
        ∧ inputText (chat (world_of (k o w2))) = inputText (chat w2)
        ∧ language (chat (world_of (k o w2))) = language (chat w2).
Proof.
  intros Hne. apply String.eqb_neq in Hne.
  destruct w as [st a at_ [ms txt ld lang sid] rl ll al sp ck tk]; simpl in *.
  unfold ChatScreen.sendMessage, try_finally, try_catch, bind, read. simpl.
  rewrite Hne. simpl.
  unfold chat_request, ApiService.sendMessage, ApiService.api. simpl.
  destruct (truthy sid) eqn:Hsid; simpl.
  all: do 2 eexists; split; [reflexivity |]; simpl.
  all: split; [reflexivity |]; split; [reflexivity |].
  all: intros o w2; destruct o as [[stt d] | resp]; simpl.
  all: try (unfold get_prop; destruct d; simpl;
            try destruct (String.eqb lang "english"); simpl).
  all: try (destruct (response_status_is resp 401); simpl).
  all: repeat split; reflexivity.
Qed.

Lemma send_holds_busy_flag_witness :
  ∃ w1 k,
    ChatScreen.sendMessage (chat_typed " Where is the library? ")
    = Await w1 (chat_request (chat_typed " Where is the library? ")) k
    ∧ loading (chat w1) = true
    ∧ inputText (chat w1) = ""
    ∧ ∀ o w2,
        loading (chat (world_of (k o w2))) = false
        ∧ inputText (chat (world_of (k o w2))) = inputText (chat w2)
        ∧ language (chat (world_of (k o w2))) = language (chat w2).
Proof.
  apply (send_holds_busy_flag (chat_typed " Where is the library? ")).
  discriminate.
Defined.

(** X21. The answer to a send adds to what is spoken exactly its
    [response] field, and only when the language at the moment of sending
    was [english] and the request succeeded with a payload, whatever
    language is selected when the answer arrives; issuing the request
    speaks nothing, and neither does a failed send or a send made in
    another language. *)
Theorem reply_spoken_only_in_english (w : World) :
  trim (inputText (chat w)) ≠ "" →
  ∃ w1 k,
    ChatScreen.sendMessage w = Await w1 (chat_request w) k
    ∧ spoken w1 = spoken w
    ∧ ∀ o w2, spoken (world_of (k o w2)) = spoken w2 ++ spoken_reply w o.
Proof.
  intros Hne. apply String.eqb_neq in Hne.
  destruct w as [st a at_ [ms txt ld lang sid] rl ll al sp ck tk]; simpl in *.
  unfold ChatScreen.sendMessage, try_finally, try_catch, bind, read. simpl.
  rewrite Hne. simpl.
  unfold chat_request, spoken_reply, get_opt, ApiService.sendMessage,
    ApiService.api. simpl.
  destruct (truthy sid) eqn:Hsid; simpl.
  all: do 2 eexists; split; [reflexivity |]; simpl.
  all: split; [reflexivity |].
  all: intros o w2; destruct o as [[stt d] | resp]; simpl.
  all: try (unfold get_prop; destruct d; simpl;
            try destruct (String.eqb lang "english"); simpl).
  all: try (destruct (response_status_is resp 401); simpl).
  all: rewrite ?app_nil_r; reflexivity.
Qed.

Lemma reply_spoken_only_in_english_witness :
  ∃ w1 k,
    ChatScreen.sendMessage (chat_typed "Where is the library?")
    = Await w1 (chat_request (chat_typed "Where is the library?")) k
    ∧ spoken w1 = spoken (chat_typed "Where is the library?")
    ∧ ∀ o w2, spoken (world_of (k o w2))
              = spoken w2
                ++ spoken_reply (chat_typed "Where is the library?") o.
Proof.
  apply (reply_spoken_only_in_english (chat_typed "Where is the library?")).
  discriminate.
Defined.

(** An answer that arrives after the language has been changed: the send
    was made in English, Waray is selected while the request is pending,
    and the answer is spoken all the same. *)
Lemma reply_spoken_after_language_change :
  language (chat (world_of (ChatScreen.setLanguage "waray"
                              (world_of first_send)))) = "waray"
  ∧ spoken (world_of (resume first_send (answer_with_session "s-1")
                        (world_of (ChatScreen.setLanguage "waray"
                                     (world_of first_send)))))
    = [JStr "The library opens at 8."].
Proof. split; reflexivity. Qed.

Lemma exchanges_snoc (n : nat) :
  exchanges n ++ [false; true] = exchanges (S n).
Proof.
  induction n as [| n IH]; [reflexivity |].
  simpl. simpl in IH. rewrite IH. reflexivity.
Qed.

(** One event adds nothing to the list, or a user message followed by a bot
    entry. *)
Lemma handle_exchange (e : ChatScreen.Event) (w : World) :
  ∃ l, messages (chat (world_of (ChatScreen.handle e w)))
       = messages (chat w) ++ l
       ∧ (isBot <$> l = [] ∨ isBot <$> l = [false; true]).
Proof.
  destruct w as [st a at_ [ms txt ld lang sid] rl ll al sp ck tk].
  destruct e as [s | l | o]; simpl;
    [exists []; rewrite app_nil_r; split; [reflexivity | left; reflexivity] .. |].
  unfold ChatScreen.sendMessage, try_finally, try_catch, bind, read. simpl.
  destruct (String.eqb (trim txt) ""); simpl;
    [exists []; rewrite app_nil_r; split; [reflexivity | left; reflexivity] |].
  chat_cases o lang sid; rewrite <- app_assoc;
    eexists; (split; [reflexivity | right; reflexivity]).
Qed.

Lemma play_exchanges (es : list ChatScreen.Event) (w : World) (n : nat) :
  isBot <$> messages (chat w) = true :: exchanges n →
  ∃ n', isBot <$> messages (chat (fst (ChatScreen.play es w)))
        = true :: exchanges n'.
Proof.
  revert w n. induction es as [| e es IH]; intros w n Hw; simpl.
  - exists n. exact Hw.
  - destruct (handle_exchange e w) as (l & Hl & Hflags).
    assert (∃ n1, isBot <$> messages (chat (world_of (ChatScreen.handle e w)))
                  = true :: exchanges n1) as [n1 Hn1].
    { rewrite Hl, fmap_app, Hw. destruct Hflags as [Hnil | Hpair].
      - exists n. rewrite Hnil. apply app_nil_r.
      - exists (S n). rewrite Hpair. simpl.
        f_equal. apply (exchanges_snoc n). }
    destruct (IH _ _ Hn1) as [n' Hn'].
    destruct (ChatScreen.play es (world_of (ChatScreen.handle e w)))
      as [w' rs]; simpl in *.
    exists n'. exact Hn'.
Qed.

(** X22. In a conversation in which every request settles before the next
    event, the list always consists of the welcome entry followed by
    complete exchanges: a user message, then one bot entry.  No user
    message stays unanswered and no two bot entries follow each other. *)
Theorem conversation_alternates (es : list ChatScreen.Event) (clk : nat → Z) :
  ∃ n, isBot <$> messages (chat (fst (ChatScreen.play es (chat_opened clk))))
       = true :: exchanges n.
Proof.
  apply (play_exchanges es (chat_opened clk) 0). reflexivity.
Qed.

(** One event adds two entries for each request it makes. *)
Lemma handle_counts (e : ChatScreen.Event) (w : World) :
  length (messages (chat (world_of (ChatScreen.handle e w))))
  = length (messages (chat w)) + 2 * length (ChatScreen.sent e w).
Proof.
  destruct w as [st a at_ [ms txt ld lang sid] rl ll al sp ck tk].
  destruct e as [s | l | o]; simpl; [lia .. |].
  unfold ChatScreen.sendMessage, try_finally, try_catch, bind, read. simpl.
  destruct (String.eqb (trim txt) ""); simpl; [lia |].
  chat_cases o lang sid; rewrite !length_app; simpl; lia.
Qed.

Lemma play_counts (es : list ChatScreen.Event) (w : World) :
  length (messages (chat (fst (ChatScreen.play es w))))
  = length (messages (chat w)) + 2 * length (snd (ChatScreen.play es w)).
Proof.
  revert w. induction es as [| e es IH]; intros w; simpl; [lia |].
  specialize (IH (world_of (ChatScreen.handle e w))).
  pose proof (handle_counts e w) as He.
  destruct (ChatScreen.play es (world_of (ChatScreen.handle e w)))
    as [w' rs]; simpl in *.
  rewrite length_app. lia.
Qed.

(** X23. Messages and requests go together: in a conversation in which
    every request settles before the next event, the list holds the welcome
    entry and exactly two entries for each send-message request made; an
    entry never appears without a request, and a request never goes without
    its two entries. *)
Theorem two_entries_per_request (es : list ChatScreen.Event) (clk : nat → Z) :
  length (messages (chat (fst (ChatScreen.play es (chat_opened clk)))))
  = 1 + 2 * length (snd (ChatScreen.play es (chat_opened clk))).
Proof.
  rewrite (play_counts es (chat_opened clk)). reflexivity.
Qed.

(** X24. The busy flag is only advisory.  When the send button is enabled,
    pressing it issues the request; but [sendMessage] itself does not look
    at the flag, so invoked while a request is pending (the button is then
    disabled, the keyboard's submit is not) it issues a second request. *)
Theorem busy_flag_is_advisory (w : World) :
  (ChatScreen.sendDisabled (chat w) = false →
   ∃ w1 k, ChatScreen.sendMessage w = Await w1 (chat_request w) k)
  ∧ (loading (chat w) = true → trim (inputText (chat w)) ≠ "" →
     ChatScreen.sendDisabled (chat w) = true
     ∧ ∃ w1 k, ChatScreen.sendMessage w = Await w1 (chat_request w) k).
Proof.
  assert (String.eqb (trim (inputText (chat w))) "" = false →
          ∃ w1 k, ChatScreen.sendMessage w = Await w1 (chat_request w) k)
    as Hsend.
  { intros Hne.
    destruct w as [st a at_ [ms txt ld lang sid] rl ll al sp ck tk];
      simpl in *.
    unfold ChatScreen.sendMessage, try_finally, try_catch, bind, read. simpl.
    rewrite Hne. simpl.
    unfold chat_request, ApiService.sendMessage, ApiService.api. simpl.
    destruct (truthy sid); simpl; do 2 eexists; reflexivity. }
  unfold ChatScreen.sendDisabled. split.
  - intros Hd. apply orb_false_iff in Hd as [_ Hne]. apply Hsend, Hne.
  - intros Hl Hne. rewrite Hl. split; [reflexivity |].
    apply Hsend, String.eqb_neq, Hne.
Qed.

Lemma busy_flag_is_advisory_witness :
  (ChatScreen.sendDisabled (chat (chat_typed "Where is the library?")) = false →
   ∃ w1 k, ChatScreen.sendMessage (chat_typed "Where is the library?")
           = Await w1 (chat_request (chat_typed "Where is the library?")) k)
  ∧ ∃ w1 k,
      ChatScreen.sendMessage
        (world_of (ChatScreen.setLoading true
                     (chat_typed "Where is the library?")))
      = Await w1 (chat_request
                    (world_of (ChatScreen.setLoading true
                                 (chat_typed "Where is the library?")))) k.
Proof.
  split.
  - apply (proj1 (busy_flag_is_advisory (chat_typed "Where is the library?"))).
  - apply (proj2 (busy_flag_is_advisory
                    (world_of (ChatScreen.setLoading true
                                 (chat_typed "Where is the library?"))))).
    + reflexivity.
    + discriminate.
Defined.

(** No event but the selection of a language changes the language. *)
Lemma handle_language (e : ChatScreen.Event) (w : World) :
  language (chat (world_of (ChatScreen.handle e w)))
  = match e with
    | ChatScreen.SelectLanguage l => l
    | _ => language (chat w)
    end.
Proof.
  destruct w as [st a at_ [ms txt ld lang sid] rl ll al sp ck tk].
  destruct e as [s | l | o]; simpl; try reflexivity.
  unfold ChatScreen.sendMessage, try_finally, try_catch, bind, read. simpl.
  destruct (String.eqb (trim txt) ""); simpl; [reflexivity |].
  chat_cases o lang sid; reflexivity.
Qed.

Lemma play_language (es : list ChatScreen.Event) (w : World) :
  Forall from_menu es →
  In (language (chat w)) (map fst ChatScreen.languages) →
  In (language (chat (fst (ChatScreen.play es w))))
     (map fst ChatScreen.languages).
Proof.
  revert w. induction es as [| e es IH]; intros w Hes Hw; simpl.
  - exact Hw.
  - apply Forall_cons in Hes as [He Hes].
    specialize (IH (world_of (ChatScreen.handle e w)) Hes).
    destruct (ChatScreen.play es (world_of (ChatScreen.handle e w)))
      as [w' rs]; simpl in *.
    apply IH. rewrite handle_language.
    destruct e; simpl in *; assumption.
Qed.

(** X25. As long as languages are selected from the menu, the language of
    the screen is one of the four menu entries, so that the caption of the
    language button is always defined. *)
Theorem language_button_always_labelled (es : list ChatScreen.Event)
    (clk : nat → Z) :
  Forall from_menu es →
  ∃ label,
    ChatScreen.languageLabel
      (language (chat (fst (ChatScreen.play es (chat_opened clk)))))
    = JStr label.
Proof.
  intros Hes.
  pose proof (play_language es (chat_opened clk) Hes) as Hin.
  simpl in Hin. specialize (Hin (or_introl eq_refl)).
  destruct Hin as [Hl | [Hl | [Hl | [Hl | []]]]]; rewrite <- Hl;
    eexists; reflexivity.
Qed.

Lemma language_button_always_labelled_witness :
  ∃ label,
    ChatScreen.languageLabel
      (language (chat (fst (ChatScreen.play
                              [ChatScreen.SelectLanguage "waray";
                               ChatScreen.TypeText "Hain an library?";
                               ChatScreen.Send (answer_with_session "s-1")]
                              (chat_opened midnight)))))
    = JStr label.
Proof.
  apply (language_button_always_labelled
           [ChatScreen.SelectLanguage "waray";
            ChatScreen.TypeText "Hain an library?";
            ChatScreen.Send (answer_with_session "s-1")] midnight).
  constructor; [simpl; right; right; left; reflexivity |].
  constructor; [exact I |].
  constructor; [exact I |].
  constructor.
Defined.



(* ===================================================================== *)
(** ** Further properties: navigation, the hook, the tab bar *)
(* ===================================================================== *)

(** X27. After logout, whatever the outcome of the logout request, the
    application (once loading is over) shows the auth screens, and the next
    call of the API client carries no Authorization header. *)
Theorem logout_signs_out (w : World) (o : HttpOutcome) (m : Method)
    (u : string) (b : JsVal) :
  isLoading (auth w) = false →
  App.AppContent (auth (world_of (run (AuthContext.logout w) [o]))) = App.Auth
  ∧ requests (ApiService.api m u b
                (world_of (run (AuthContext.logout w) [o]))) []
    = [request_with m u b None].
Proof.
  intros Hl.
  destruct w as [[wb ls ss] [usr tk_ ld] at_ c rl ll al sp ck tk]; simpl in *.
  subst ld.
  unfold AuthContext.logout, try_finally, try_catch, bind, isWeb, read. simpl.
  destruct o as [r | resp]; simpl;
    [| destruct (response_status_is resp 401); simpl];
    destruct wb; simpl; split; reflexivity.
Qed.

Lemma logout_signs_out_witness :
  App.AppContent
    (auth (world_of (run (AuthContext.logout
                            (loaded (boot (web_store "abc" "null") midnight)))
                         [Rejected None])))
  = App.Auth
  ∧ requests (ApiService.getProfile
                (world_of (run (AuthContext.logout
                                  (loaded (boot (web_store "abc" "null")
                                                midnight)))
                               [Rejected None]))) []
    = [request_with GET "/users/profile/" JUndefined None].
Proof.
  apply (logout_signs_out (loaded (boot (web_store "abc" "null") midnight))
           (Rejected None) GET "/users/profile/" JUndefined).
  reflexivity.
Defined.

(** The guard of [useAuth] never fires.  Inside a provider, whose
    value is an object, the hook returns that value; outside every provider
    [useContext] gives the default [{}], which is truthy, so the hook
    returns the empty object instead of throwing, and [user] and
    [isLoading] read from it are [undefined]. *)
Theorem useAuth_never_throws (fields : list (string * JsVal)) :
  AuthContext.useAuth (Some (JObj fields)) = Some (JObj fields)
  ∧ AuthContext.useAuth None = Some (JObj [])
  ∧ get_opt (AuthContext.useContext None) "user" = JUndefined
  ∧ get_opt (AuthContext.useContext None) "isLoading" = JUndefined.
Proof. repeat split; reflexivity. Qed.

(** Every tab that the navigator registers has an icon in both
    states, the unfocused name being the focused one with [-outline]
    appended; for any other route name [iconName] stays [undefined]. *)
Theorem every_tab_has_an_icon (routeName : string) :
  (In routeName MainNavigator.tabs →
   ∃ name, MainNavigator.iconName routeName true = JStr name
           ∧ MainNavigator.iconName routeName false
             = JStr (name +:+ "-outline"))
  ∧ (¬ In routeName MainNavigator.tabs →
     ∀ focused, MainNavigator.iconName routeName focused = JUndefined).
Proof.
  split.
  - intros [Hr | [Hr | [Hr | []]]]; subst routeName; eexists; split; reflexivity.
  - intros Hnot focused. unfold MainNavigator.iconName.
    destruct (String.eqb_spec routeName "Chat") as [-> | _];
      [exfalso; apply Hnot; simpl; auto |].
    destruct (String.eqb_spec routeName "History") as [-> | _];
      [exfalso; apply Hnot; simpl; auto |].
    destruct (String.eqb_spec routeName "Profile") as [-> | _];
      [exfalso; apply Hnot; simpl; auto |].
    reflexivity.
Qed.

Lemma every_tab_has_an_icon_witness :
  (∃ name, MainNavigator.iconName "History" true = JStr name
           ∧ MainNavigator.iconName "History" false
             = JStr (name +:+ "-outline"))
  ∧ ∀ focused, MainNavigator.iconName "Settings" focused = JUndefined.
Proof.
  split.
  - apply (proj1 (every_tab_has_an_icon "History")).
    simpl. right. left. reflexivity.
  - apply (proj2 (every_tab_has_an_icon "Settings")).
    simpl. intros [Hr | [Hr | [Hr | []]]]; discriminate.
Defined.

(* ===================================================================== *)
(** ** Further properties: the mobile-only AuthContext *)
(* ===================================================================== *)

(** X28. The mobile-only bootstrap never asks the server and never writes
    to the store: for every store it completes at once with [isLoading]
    off.  When SecureStore holds both credentials and the user record
    parses, it restores token and user and hands the token to the API
    client without validating it. *)
Theorem mobile_bootstrap_trusts_store `{JSON} (w : World) :
  (∃ w', MobileAuthContext.loadStoredAuth w = Done w' (Ok ())
         ∧ isLoading (auth w') = false
         ∧ store w' = store w)
  ∧ ∀ tok usr u,
      secureStore (store w) !! "authToken" = Some tok → tok ≠ "" →
      secureStore (store w) !! "userData" = Some usr → usr ≠ "" →
      JSON_parse usr = Some u →
      ∃ w', MobileAuthContext.loadStoredAuth w = Done w' (Ok ())
            ∧ token (auth w') = JStr tok
            ∧ user (auth w') = u
            ∧ authToken w' = JStr tok.
Proof.
  destruct w as [[wb ls ss] a at_ c rl ll al sp ck tk]; simpl.
  unfold MobileAuthContext.loadStoredAuth, try_finally, try_catch, bind, read.
  simpl. unfold stored. split.
  - destruct (ss !! "authToken") as [tok |]; simpl;
      [| eexists; repeat split; reflexivity].
    destruct (ss !! "userData") as [usr |]; simpl;
      [| rewrite andb_false_r; eexists; repeat split; reflexivity].
    destruct (String.eqb tok ""); simpl;
      [eexists; repeat split; reflexivity |].
    destruct (String.eqb usr ""); simpl;
      [eexists; repeat split; reflexivity |].
    unfold AuthContext.parse; simpl.
    destruct (JSON_parse usr); simpl; eexists; repeat split; reflexivity.
  - intros tok usr u Ht Htne Hu Hune Hp.
    apply String.eqb_neq in Htne, Hune.
    rewrite Ht, Hu. simpl. rewrite Htne, Hune. simpl.
    unfold AuthContext.parse; simpl. rewrite Hp. simpl.
    eexists; repeat split; reflexivity.
Qed.

Lemma mobile_bootstrap_trusts_store_witness :
  ∃ w', MobileAuthContext.loadStoredAuth (H := record_JSON)
          (boot (native_store "abc" "{}") midnight)
        = Done w' (Ok ())
        ∧ token (auth w') = JStr "abc"
        ∧ user (auth w') = JObj []
        ∧ authToken w' = JStr "abc".
Proof.
  apply (proj2 (mobile_bootstrap_trusts_store (H := record_JSON)
                  (boot (native_store "abc" "{}") midnight))
           "abc" "{}" (JObj [])).
  - reflexivity.
  - discriminate.
  - reflexivity.
  - discriminate.
  - reflexivity.
Defined.

(** X29. When the user record in SecureStore does not parse, the
    mobile-only bootstrap ends with the stored token in the provider and
    no user, and it neither hands the token to the API client nor removes
    the unreadable record: every later start ends the same way. *)
Theorem mobile_bootstrap_keeps_unreadable_record `{JSON} (w : World)
    (tok usr : string) :
  secureStore (store w) !! "authToken" = Some tok → tok ≠ "" →
  secureStore (store w) !! "userData" = Some usr → usr ≠ "" →
  JSON_parse usr = None →
  ∃ w', MobileAuthContext.loadStoredAuth w = Done w' (Ok ())
        ∧ token (auth w') = JStr tok
        ∧ user (auth w') = user (auth w)
        ∧ isLoading (auth w') = false
        ∧ authToken w' = authToken w
        ∧ store w' = store w.
Proof.
  intros Ht Htne Hu Hune Hp.
  apply String.eqb_neq in Htne, Hune.
  destruct w as [[wb ls ss] a at_ c rl ll al sp ck tk]; simpl in *.
  unfold MobileAuthContext.loadStoredAuth, try_finally, try_catch, bind, read.
  simpl. unfold stored. rewrite Ht, Hu. simpl. rewrite Htne, Hune. simpl.
  unfold AuthContext.parse; simpl. rewrite Hp. simpl.
  eexists; repeat split; reflexivity.
Qed.

Lemma mobile_bootstrap_keeps_unreadable_record_witness :
  ∃ w', MobileAuthContext.loadStoredAuth (H := literal_JSON)
          (boot (native_store "abc" "undefined") midnight)
        = Done w' (Ok ())
        ∧ token (auth w') = JStr "abc"
        ∧ user (auth w') = JNull
        ∧ isLoading (auth w') = false
        ∧ authToken w' = JUndefined
        ∧ store w' = native_store "abc" "undefined".
Proof.
  apply (mobile_bootstrap_keeps_unreadable_record (H := literal_JSON)
           (boot (native_store "abc" "undefined") midnight)
           "abc" "undefined").
  - reflexivity.
  - discriminate.
  - reflexivity.
  - discriminate.
  - reflexivity.
Defined.

(** X30. On the native backend the web-compatible provider behaves exactly
    as the mobile-only one with the same API client: login, register,
    logout and update-profile end in the same world with the same result,
    for every outcome of the request. *)
Theorem native_backend_agrees_with_mobile `{JSON} (w : World)
    (o : HttpOutcome) (email password : string)
    (userData profileData : JsVal) :
  web (store w) = false →
  run (AuthContext.login email password w) [o]
  = run (MobileAuthContext.login ApiService.login email password w) [o]
  ∧ run (AuthContext.register userData w) [o]
    = run (MobileAuthContext.register ApiService.register userData w) [o]
  ∧ run (AuthContext.logout w) [o]
    = run (MobileAuthContext.logout ApiService.logout w) [o]
  ∧ run (AuthContext.updateProfile profileData w) [o]
    = run (MobileAuthContext.updateProfile ApiService.updateProfile
             profileData w) [o].
Proof.
  intros Hweb.
  destruct w as [[wb ls ss] a at_ c rl ll al sp ck tk]; simpl in *.
  subst wb.
  unfold AuthContext.login, AuthContext.register, AuthContext.logout,
    AuthContext.updateProfile, MobileAuthContext.login,
    MobileAuthContext.register, MobileAuthContext.logout,
    MobileAuthContext.updateProfile.
  unfold_proc.
  destruct o as [[st d] | resp]; simpl.
  - destruct d; simpl; try (repeat split; reflexivity).
    generalize (field "token" fields) (field "user" fields). intros t u.
    unfold SecureStore.setItemAsync.
    destruct (JSON_stringify u); destruct t; simpl; repeat split; reflexivity.
  - destruct (response_status_is resp 401); simpl; repeat split; reflexivity.
Qed.

Lemma native_backend_agrees_with_mobile_witness :
  run (AuthContext.login (H := record_JSON) "juan@evsu.edu.ph" "secret1"
         (boot (native_store "" "") midnight))
      [Resolved (session_answer "abc" (JObj []))]
  = run (MobileAuthContext.login (H := record_JSON) ApiService.login
           "juan@evsu.edu.ph" "secret1" (boot (native_store "" "") midnight))
        [Resolved (session_answer "abc" (JObj []))]
  ∧ run (AuthContext.register (H := record_JSON) (JObj [])
           (boot (native_store "" "") midnight))
        [Resolved (session_answer "abc" (JObj []))]
    = run (MobileAuthContext.register (H := record_JSON) ApiService.register
             (JObj []) (boot (native_store "" "") midnight))
          [Resolved (session_answer "abc" (JObj []))]
  ∧ run (AuthContext.logout (boot (native_store "" "") midnight))
        [Resolved (session_answer "abc" (JObj []))]
    = run (MobileAuthContext.logout ApiService.logout
             (boot (native_store "" "") midnight))
          [Resolved (session_answer "abc" (JObj []))]
  ∧ run (AuthContext.updateProfile (H := record_JSON) (JObj [])
           (boot (native_store "" "") midnight))
        [Resolved (session_answer "abc" (JObj []))]
    = run (MobileAuthContext.updateProfile (H := record_JSON)
             ApiService.updateProfile (JObj [])
             (boot (native_store "" "") midnight))
          [Resolved (session_answer "abc" (JObj []))].
Proof.
  apply (native_backend_agrees_with_mobile (H := record_JSON)
           (boot (native_store "" "") midnight)
           (Resolved (session_answer "abc" (JObj [])))
           "juan@evsu.edu.ph" "secret1" (JObj []) (JObj [])).
  reflexivity.
Defined.
